(** * sample_connections_async.py: a shallow embedding

    The sample [sdk/ai/azure-ai-projects/samples/connections/async_samples/
    sample_connections_async.py] is one sequential coroutine.  It reads three
    environment variables, opens an [AIProjectClient] inside [async with],
    queries the connection service four times, and then, outside the [with]
    block, builds one of two chat clients from the last connection it fetched
    and sends a single chat completion.

    Everything the script calls (the project client, the OpenAI client, the
    inference client, the credential helpers) lives in other packages.  The
    embedding therefore records each external call as an event of a trace, in
    program order, and takes the answer of each awaited call, and the outcome
    of a client constructor where the sample cannot know it, from a [World].
    Exceptions are explicit: a computation returns [Ok v] or [Raise e], and the
    trace collected up to the raise is kept, so that one can ask what had (and
    had not) happened when the coroutine died. *)

From stdpp Require Import base option list strings gmap pretty.

Local Open Scope string_scope.
Local Open Scope list_scope.

(** ** Data model *)

(** Modelled from the spec: the enumeration [azure.ai.projects.models.ConnectionType]
    is imported by the sample but declared elsewhere.  The sample names two of
    its members; the spec lists a third ([Serverless]) and says there are more. *)
Inductive ConnectionType :=
  | AZURE_OPEN_AI
  | AZURE_AI_SERVICES
  | SERVERLESS
  | OTHER_CONNECTION_TYPE (value : string).

(** Modelled from the spec: the enumeration [azure.ai.projects.models.AuthenticationType]
    is imported by the sample but declared elsewhere.  The sample names two of
    its members and the spec says there are more. *)
Inductive AuthenticationType :=
  | API_KEY
  | ENTRA_ID
  | OTHER_AUTHENTICATION_TYPE (value : string).

#[global] Instance ConnectionType_eq_dec : EqDecision ConnectionType.
Proof. solve_decision. Defined.

#[global] Instance AuthenticationType_eq_dec : EqDecision AuthenticationType.
Proof. solve_decision. Defined.

(** An opaque credential object ([AsyncTokenCredential]); only its identity matters. *)
Definition TokenCredential := nat.

(** The attributes of a connection that the sample reads.  [key] and
    [token_credential] may be [None] in Python. *)
Record Connection := {
  name : string;
  connection_type : ConnectionType;
  authentication_type : AuthenticationType;
  endpoint_url : string;
  key : option string;
  token_credential : option TokenCredential;
}.

(** [get_bearer_token_provider(credential, scope)] returns a callable that is
    determined by its two arguments.  [cast(AsyncTokenCredential, x)] is the
    identity at run time, so the credential is passed as it is stored. *)
Record BearerTokenProvider := {
  provider_credential : option TokenCredential;
  provider_scope : string;
}.

(** The keyword arguments given to [AsyncAzureOpenAI(...)]: the sample passes
    either [api_key=] or [azure_ad_token_provider=]. *)
Inductive AzureOpenAIAuth :=
  | api_key (k : option string)
  | azure_ad_token_provider (p : BearerTokenProvider).

Record AsyncAzureOpenAI := {
  aoai_auth : AzureOpenAIAuth;
  azure_endpoint : string;
  api_version : string;
}.

(** The [credential=] argument given to [ChatCompletionsClient(...)]. *)
Inductive InferenceCredential :=
  | AzureKeyCredential (k : string)
  | RawTokenCredential (c : option TokenCredential).

Record ChatCompletionsClient := {
  endpoint : string;
  credential : InferenceCredential;
}.

(** A chat message: the dict [{"role": .., "content": ..}] or [UserMessage(content=..)]. *)
Record ChatMessage := {
  role : string;
  content : string;
}.

Definition UserMessage (c : string) : ChatMessage := {| role := "user"; content := c |}.

(** A completion response, reduced to what the sample reads from it:
    [response.choices[i].message.content], which may be [None]. *)
Record ChatCompletions := {
  choices : list (option string);
}.

(** ** Exceptions, events, and the outside world *)

Inductive exn :=
  | KeyError (k : string)
  | ValueError (msg : string)
  | IndexError
  | UnboundLocalError (var : string)
  | ExternalError (what : string).

Inductive Result (A : Type) :=
  | Ok (a : A)
  | Raise (e : exn).
Arguments Ok {A} a.
Arguments Raise {A} e.

(** One event per call that leaves the script, in the order the calls are made. *)
Inductive Event :=
  | EEnviron (k : string)
  | EDefaultAzureCredential
  | EFromConnectionString (conn_str : string)
  | EProjectEnter
  | EProjectExit
  | EConnectionsList (connection_type : option ConnectionType)
  | EConnectionsGetDefault (connection_type : ConnectionType) (include_credentials : bool)
  | EConnectionsGet (connection_name : string) (include_credentials : bool)
  | EPrint (line : string)
  | EGetBearerTokenProvider (cred : option TokenCredential) (scope : string)
  | ENewAsyncAzureOpenAI (client : AsyncAzureOpenAI)
  | ENewChatCompletionsClient (client : ChatCompletionsClient)
  | EChatCompletionsCreate (client : AsyncAzureOpenAI) (model : string) (messages : list ChatMessage)
  | EComplete (client : ChatCompletionsClient) (model : string) (messages : list ChatMessage)
  | ECloseAsyncAzureOpenAI (client : AsyncAzureOpenAI)
  | ECloseChatCompletionsClient (client : ChatCompletionsClient).

(** What the script cannot decide by itself: the process environment, the
    answers of the remote services, whether a client constructor of another
    package accepts its arguments, and how the SDK renders its objects. *)
Record World := {
  environ : gmap string string;
  from_connection_string : string → Result unit;
  connections_list : option ConnectionType → Result (list Connection);
  connections_get_default : ConnectionType → bool → Result Connection;
  connections_get : string → bool → Result Connection;
  AsyncAzureOpenAI_init : AsyncAzureOpenAI → Result unit;
  ChatCompletionsClient_init : ChatCompletionsClient → Result unit;
  chat_completions_create : AsyncAzureOpenAI → string → list ChatMessage → Result ChatCompletions;
  complete : ChatCompletionsClient → string → list ChatMessage → Result ChatCompletions;
  str_Connection : Connection → string;
  str_AuthenticationType : AuthenticationType → string;
}.

(** ** The coroutine monad *)

(** The two local variables that the sample assigns more than once. *)
Record Locals := {
  connections : option (list Connection);
  connection : option Connection;
}.

Definition no_locals : Locals := {| connections := None; connection := None |}.

Record Outcome (A : Type) := {
  res : Result A;
  locals : Locals;
  trace : list Event;
}.
Arguments res {A} o.
Arguments locals {A} o.
Arguments trace {A} o.

Definition M (A : Type) : Type := Locals → Outcome A.

Definition ret {A} (a : A) : M A :=
  λ s, {| res := Ok a; locals := s; trace := [] |}.

Definition bind {A B} (m : M A) (f : A → M B) : M B :=
  λ s,
    let o := m s in
    match res o with
    | Ok a =>
        let o' := f a (locals o) in
        {| res := res o'; locals := locals o'; trace := trace o ++ trace o' |}
    | Raise e => {| res := Raise e; locals := locals o; trace := trace o |}
    end.

#[global] Instance M_ret : MRet M := @ret.
#[global] Instance M_bind : MBind M := λ A B f m, bind m f.

Definition raise {A} (e : exn) : M A :=
  λ s, {| res := Raise e; locals := s; trace := [] |}.

Definition emit (e : Event) : M unit :=
  λ s, {| res := Ok tt; locals := s; trace := [e] |}.

(** An external call: it is recorded, then it returns or raises what the world says. *)
Definition call {A} (e : Event) (r : Result A) : M A :=
  λ s, {| res := r; locals := s; trace := [e] |}.

(** [try: m finally: fin], the shape of [async with]: [fin] runs on both exits
    and the exception, if any, goes on. *)
Definition finally {A} (m : M A) (fin : M unit) : M A :=
  λ s,
    let o := m s in
    let o' := fin (locals o) in
    {| res := match res o' with Ok _ => res o | Raise e => Raise e end;
       locals := locals o';
       trace := trace o ++ trace o' |}.

Definition set_connections (v : list Connection) : M unit :=
  λ s, {| res := Ok tt;
          locals := {| connections := Some v; connection := connection s |};
          trace := [] |}.

Definition set_connection (v : Connection) : M unit :=
  λ s, {| res := Ok tt;
          locals := {| connections := connections s; connection := Some v |};
          trace := [] |}.

Definition get_connections : M (list Connection) :=
  λ s, match connections s with
       | Some v => ret v s
       | None => raise (UnboundLocalError "connections") s
       end.

Definition get_connection : M Connection :=
  λ s, match connection s with
       | Some v => ret v s
       | None => raise (UnboundLocalError "connection") s
       end.

(** [for connection in xs: body] binds the loop variable [connection] at each turn. *)
Fixpoint for_connection_in (xs : list Connection) (body : M unit) : M unit :=
  match xs with
  | [] => mret tt
  | x :: xs' => set_connection x;; body;; for_connection_in xs' body
  end.

Definition print (line : string) : M unit := emit (EPrint line).

(** [os.environ[k]] *)
Definition os_environ (w : World) (k : string) : M string :=
  emit (EEnviron k);;
  match environ w !! k with
  | Some v => mret v
  | None => raise (KeyError k)
  end.

(** ** The calls the sample makes *)

Definition DefaultAzureCredential : M unit := emit EDefaultAzureCredential.

Definition AIProjectClient_from_connection_string (w : World) (conn_str : string) : M unit :=
  call (EFromConnectionString conn_str) (from_connection_string w conn_str).

(** [async with project_client: body] *)
Definition async_with_project_client {A} (body : M A) : M A :=
  emit EProjectEnter;; finally body (emit EProjectExit).

Definition project_client_connections_list (w : World) (ct : option ConnectionType)
    : M (list Connection) :=
  call (EConnectionsList ct) (connections_list w ct).

Definition project_client_connections_get_default (w : World) (ct : ConnectionType)
    (include_credentials : bool) : M Connection :=
  call (EConnectionsGetDefault ct include_credentials)
       (connections_get_default w ct include_credentials).

Definition project_client_connections_get (w : World) (connection_name : string)
    (include_credentials : bool) : M Connection :=
  call (EConnectionsGet connection_name include_credentials)
       (connections_get w connection_name include_credentials).

Definition get_bearer_token_provider (cred : option TokenCredential) (scope : string)
    : M BearerTokenProvider :=
  emit (EGetBearerTokenProvider cred scope);;
  mret {| provider_credential := cred; provider_scope := scope |}.

(** [AsyncAzureOpenAI(...)] belongs to the openai package.  The call is
    recorded with its arguments; whether it returns or raises is that
    library's decision, which also looks at the process environment (given no
    credential it falls back on [AZURE_OPENAI_API_KEY] and raises when there
    is none), so the outcome is the world's.  The client object is named by the
    arguments it was built from. *)
Definition new_AsyncAzureOpenAI (w : World) (client : AsyncAzureOpenAI) : M AsyncAzureOpenAI :=
  call (ENewAsyncAzureOpenAI client) (AsyncAzureOpenAI_init w client);;
  mret client.

(** Modelled from the spec: [ChatCompletionsClient] is defined in the
    azure-ai-inference package of this repository, not in the sample.  The
    spec says that a key credential is accepted, the empty key included
    (tolerated, not an error).  For a token credential it says nothing, so the
    outcome of that call is the world's: the client refuses a credential that
    is [None]. *)
Definition new_ChatCompletionsClient (w : World) (client : ChatCompletionsClient)
    : M ChatCompletionsClient :=
  match credential client with
  | AzureKeyCredential _ =>
      emit (ENewChatCompletionsClient client);; mret client
  | RawTokenCredential _ =>
      call (ENewChatCompletionsClient client) (ChatCompletionsClient_init w client);;
      mret client
  end.

(** Python's [x or ''] on an optional string: [None] and the empty string are falsy. *)
Definition or_empty (x : option string) : string :=
  match x with
  | Some s => if decide (s = EmptyString) then EmptyString else s
  | None => EmptyString
  end.

(** [print(response.choices[0].message.content)]: indexing an empty list raises
    [IndexError]; [print(None)] writes [None]. *)
Definition print_first_choice (r : ChatCompletions) : M unit :=
  match choices r with
  | [] => raise IndexError
  | c :: _ => print (default "None" c)
  end.

(** [print(connection)] reads the local variable. *)
Definition print_connection (w : World) : M unit :=
  c ← get_connection; print (str_Connection w c).

(** ** The sample, block by block *)

(** Lines 84-105: the [if]/[elif]/[else] on the authentication type inside the
    Azure OpenAI branch. *)
Definition aoai_client_for (w : World) (c : Connection) : M AsyncAzureOpenAI :=
  if decide (authentication_type c = API_KEY) then
    print "====> Creating AzureOpenAI client using API key authentication";;
    new_AsyncAzureOpenAI w
      {| aoai_auth := api_key (key c);
         azure_endpoint := endpoint_url c;
         api_version := "2024-06-01" |}
  else if decide (authentication_type c = ENTRA_ID) then
    print "====> Creating AzureOpenAI client using Entra ID authentication";;
    p ← get_bearer_token_provider (token_credential c)
          "https://cognitiveservices.azure.com/.default";
    new_AsyncAzureOpenAI w
      {| aoai_auth := azure_ad_token_provider p;
         azure_endpoint := endpoint_url c;
         api_version := "2024-06-01" |}
  else
    raise (ValueError ("Authentication type "
                       +:+ str_AuthenticationType w (authentication_type c)
                       +:+ " not supported.")).

(** Lines 124-140: the same three-way choice inside the Azure AI Services branch. *)
Definition inference_client_for (w : World) (c : Connection) : M ChatCompletionsClient :=
  if decide (authentication_type c = API_KEY) then
    print "====> Creating ChatCompletionsClient using API key authentication";;
    new_ChatCompletionsClient w
      {| endpoint := endpoint_url c;
         credential := AzureKeyCredential (or_empty (key c)) |}
  else if decide (authentication_type c = ENTRA_ID) then
    print "====> Creating ChatCompletionsClient using Entra ID authentication";;
    new_ChatCompletionsClient w
      {| endpoint := endpoint_url c;
         credential := RawTokenCredential (token_credential c) |}
  else
    raise (ValueError ("Authentication type "
                       +:+ str_AuthenticationType w (authentication_type c)
                       +:+ " not supported.")).

(** Lines 79-146, for the value [c] of the variable [connection] (nothing in
    these lines assigns it): build a client, ask one question, close, print. *)
Definition create_inference_client (w : World) (model_deployment_name : string)
    (c : Connection) : M unit :=
  if decide (connection_type c = AZURE_OPEN_AI) then
    aoai_client ← aoai_client_for w c;
    aoai_response ←
      call (EChatCompletionsCreate aoai_client model_deployment_name
              [{| role := "user"; content := "How many feet are in a mile?" |}])
           (chat_completions_create w aoai_client model_deployment_name
              [{| role := "user"; content := "How many feet are in a mile?" |}]);
    emit (ECloseAsyncAzureOpenAI aoai_client);;
    print_first_choice aoai_response
  else if decide (connection_type c = AZURE_AI_SERVICES) then
    inference_client ← inference_client_for w c;
    inference_response ←
      call (EComplete inference_client model_deployment_name
              [UserMessage "How many feet are in a mile?"])
           (complete w inference_client model_deployment_name
              [UserMessage "How many feet are in a mile?"]);
    emit (ECloseChatCompletionsClient inference_client);;
    print_first_choice inference_response
  else
    mret tt.

(** Lines 48-76: the body of the [async with] block. *)
Definition with_body (w : World) (connection_name : string) : M unit :=
  cs ← project_client_connections_list w None;
  set_connections cs;;
  cs ← get_connections;
  print ("====> Listing of all connections (found " +:+ pretty (length cs) +:+ "):");;
  cs ← get_connections;
  for_connection_in cs (print_connection w);;
  cs ← project_client_connections_list w (Some AZURE_OPEN_AI);
  set_connections cs;;
  print "====> Listing of all Azure Open AI connections (found {len(connections)}):";;
  cs ← get_connections;
  for_connection_in cs (print_connection w);;
  c ← project_client_connections_get_default w AZURE_AI_SERVICES true;
  set_connection c;;
  print "====> Get default Azure AI Services connection:";;
  print_connection w;;
  c ← project_client_connections_get w connection_name true;
  set_connection c;;
  print "====> Get connection by name:";;
  print_connection w.

(** Lines 35-146. *)
Definition sample_connections_async (w : World) : M unit :=
  project_connection_string ← os_environ w "PROJECT_CONNECTION_STRING";
  connection_name ← os_environ w "CONNECTION_NAME";
  model_deployment_name ← os_environ w "MODEL_DEPLOYMENT_NAME";
  DefaultAzureCredential;;
  AIProjectClient_from_connection_string w project_connection_string;;
  async_with_project_client (with_body w connection_name);;
  c ← get_connection;
  create_inference_client w model_deployment_name c.

(** [main] awaits the sample; [asyncio.run(main())] starts with no local bound. *)
Definition main (w : World) : Outcome unit := sample_connections_async w no_locals.

(** ** Reading a trace *)

(** The two chat-client variants of the spec. *)
Inductive ChatClient :=
  | OpenAICompatible (client : AsyncAzureOpenAI)
  | InferenceService (client : ChatCompletionsClient).

Inductive Variant := OpenAIVariant | InferenceVariant.

Definition variant_of (cl : ChatClient) : Variant :=
  match cl with
  | OpenAICompatible _ => OpenAIVariant
  | InferenceService _ => InferenceVariant
  end.

Definition construction (e : Event) : option ChatClient :=
  match e with
  | ENewAsyncAzureOpenAI cl => Some (OpenAICompatible cl)
  | ENewChatCompletionsClient cl => Some (InferenceService cl)
  | _ => None
  end.

Definition closing (e : Event) : option ChatClient :=
  match e with
  | ECloseAsyncAzureOpenAI cl => Some (OpenAICompatible cl)
  | ECloseChatCompletionsClient cl => Some (InferenceService cl)
  | _ => None
  end.

Definition bearer_wrapping (e : Event) : option BearerTokenProvider :=
  match e with
  | EGetBearerTokenProvider cred scope =>
      Some {| provider_credential := cred; provider_scope := scope |}
  | _ => None
  end.

(** The constructor calls made (whether or not they returned), the clients
    closed, and the bearer-token providers requested along a trace, each in
    order. *)
Definition constructed (t : list Event) : list ChatClient := omap construction t.
Definition closed (t : list Event) : list ChatClient := omap closing t.
Definition bearer_token_providers (t : list Event) : list BearerTokenProvider :=
  omap bearer_wrapping t.

(** Events that reach a remote service: the session, the connection queries
    and the two completion calls. *)
Definition is_network_call (e : Event) : bool :=
  match e with
  | EProjectEnter | EProjectExit
  | EConnectionsList _ | EConnectionsGetDefault _ _ | EConnectionsGet _ _
  | EChatCompletionsCreate _ _ _ | EComplete _ _ _
  | ECloseAsyncAzureOpenAI _ | ECloseChatCompletionsClient _ => true
  | _ => false
  end.

Definition is_environ_read (e : Event) : bool :=
  match e with EEnviron _ => true | _ => false end.

(** Session bootstrap: creating the credential and the project client. *)
Definition is_bootstrap (e : Event) : bool :=
  match e with
  | EDefaultAzureCredential | EFromConnectionString _ => true
  | _ => false
  end.

(** ** Expected traces *)

(** What [for connection in cs: print(connection)] writes. *)
Definition printed (w : World) (cs : list Connection) : list Event :=
  (λ x, EPrint (str_Connection w x)) <$> cs.

(** The events of lines 48-76 when all four queries succeed: [l1] and [l2]
    are the two listings, [d] the default connection, [c] the named one. *)
Definition with_body_trace (w : World) (connection_name : string)
    (l1 l2 : list Connection) (d c : Connection) : list Event :=
  [EConnectionsList None;
   EPrint ("====> Listing of all connections (found " +:+ pretty (length l1) +:+ "):")]
  ++ printed w l1
  ++ [EConnectionsList (Some AZURE_OPEN_AI);
      EPrint "====> Listing of all Azure Open AI connections (found {len(connections)}):"]
  ++ printed w l2
  ++ [EConnectionsGetDefault AZURE_AI_SERVICES true;
      EPrint "====> Get default Azure AI Services connection:";
      EPrint (str_Connection w d);
      EConnectionsGet connection_name true;
      EPrint "====> Get connection by name:";
      EPrint (str_Connection w c)].

(** The events of lines 37-44 when the three variables are set. *)
Definition bootstrap_trace (project_connection_string : string) : list Event :=
  [EEnviron "PROJECT_CONNECTION_STRING";
   EEnviron "CONNECTION_NAME";
   EEnviron "MODEL_DEPLOYMENT_NAME";
   EDefaultAzureCredential;
   EFromConnectionString project_connection_string].

(** An outcome seen after the events [t] have already happened. *)
Definition after {A} (t : list Event) (o : Outcome A) : Outcome A :=
  {| res := res o; locals := locals o; trace := t ++ trace o |}.

(** ** Example inputs *)

Definition example_connection (ct : ConnectionType) (auth : AuthenticationType)
    (k : option string) (cred : option TokenCredential) : Connection :=
  {| name := "my-connection";
     connection_type := ct;
     authentication_type := auth;
     endpoint_url := "https://example.openai.azure.com";
     key := k;
     token_credential := cred |}.

(** A world in which every variable is set and every service answers with the
    connections [listed], the default connection [d] and the named connection [c].
    No OpenAI credential is in the environment, so [AsyncAzureOpenAI] refuses a
    call without one; [ChatCompletionsClient] refuses a missing credential. *)
Definition example_world (listed : list Connection) (d c : Connection)
    (answer : Result ChatCompletions) : World :=
  {| environ :=
       {[ "PROJECT_CONNECTION_STRING" := "host;subscription;group;project";
          "CONNECTION_NAME" := "my-connection";
          "MODEL_DEPLOYMENT_NAME" := "gpt-4o" ]};
     from_connection_string := λ _, Ok tt;
     connections_list := λ ct,
       Ok (match ct with
           | None => listed
           | Some t => List.filter (λ x, bool_decide (connection_type x = t)) listed
           end);
     connections_get_default := λ _ _, Ok d;
     connections_get := λ _ _, Ok c;
     AsyncAzureOpenAI_init := λ cl,
       match aoai_auth cl with
       | api_key None => Raise (ExternalError "OpenAIError: Missing credentials.")
       | _ => Ok tt
       end;
     ChatCompletionsClient_init := λ cl,
       match credential cl with
       | RawTokenCredential None => Raise (ValueError "Parameter 'credential' must not be None.")
       | _ => Ok tt
       end;
     chat_completions_create := λ _ _ _, answer;
     complete := λ _ _ _, answer;
     str_Connection := name;
     str_AuthenticationType := λ a,
       match a with
       | API_KEY => "ApiKey"
       | ENTRA_ID => "AAD"
       | OTHER_AUTHENTICATION_TYPE v => v
       end |}.

Definition example_answer : Result ChatCompletions :=
  Ok {| choices := [Some "There are 5280 feet in a mile."] |}.

(** Inputs used to instantiate and to test the statements below. *)
Definition openai_key_connection : Connection :=
  example_connection AZURE_OPEN_AI API_KEY (Some "0123456789abcdef") None.
Definition openai_keyless_connection : Connection :=
  example_connection AZURE_OPEN_AI API_KEY None None.
Definition openai_entra_connection : Connection :=
  example_connection AZURE_OPEN_AI ENTRA_ID None (Some 7).
Definition openai_sas_connection : Connection :=
  example_connection AZURE_OPEN_AI (OTHER_AUTHENTICATION_TYPE "SAS") None None.
Definition services_keyless_connection : Connection :=
  example_connection AZURE_AI_SERVICES API_KEY None None.
Definition services_entra_connection : Connection :=
  example_connection AZURE_AI_SERVICES ENTRA_ID None (Some 7).

Definition quiet_world : World :=
  example_world [openai_key_connection; services_entra_connection]
    services_entra_connection openai_key_connection example_answer.

(** The completion service is down; everything else answers. *)
Definition failing_completion_world : World :=
  example_world [openai_key_connection; services_entra_connection]
    services_entra_connection openai_key_connection
    (Raise (ExternalError "chat completion request failed")).

(** The process environment also holds [AZURE_OPENAI_API_KEY], so that
    [AsyncAzureOpenAI] accepts a call that passes no key of its own; the
    connection fetched by name has no key. *)
Definition environment_key_world : World :=
  {| environ := <["AZURE_OPENAI_API_KEY" := "fedcba9876543210"]> (environ quiet_world);
     from_connection_string := from_connection_string quiet_world;
     connections_list := connections_list quiet_world;
     connections_get_default := connections_get_default quiet_world;
     connections_get := λ _ _, Ok openai_keyless_connection;
     AsyncAzureOpenAI_init := λ _, Ok tt;
     ChatCompletionsClient_init := ChatCompletionsClient_init quiet_world;
     chat_completions_create := chat_completions_create quiet_world;
     complete := complete quiet_world;
     str_Connection := str_Connection quiet_world;
     str_AuthenticationType := str_AuthenticationType quiet_world |}.

(** [CONNECTION_NAME] is not set. *)
Definition unconfigured_world : World :=
  {| environ := {[ "PROJECT_CONNECTION_STRING" := "host;subscription;group;project";
                   "MODEL_DEPLOYMENT_NAME" := "gpt-4o" ]};
     from_connection_string := from_connection_string quiet_world;
     connections_list := connections_list quiet_world;
     connections_get_default := connections_get_default quiet_world;
     connections_get := connections_get quiet_world;
     AsyncAzureOpenAI_init := AsyncAzureOpenAI_init quiet_world;
     ChatCompletionsClient_init := ChatCompletionsClient_init quiet_world;
     chat_completions_create := chat_completions_create quiet_world;
     complete := complete quiet_world;
     str_Connection := str_Connection quiet_world;
     str_AuthenticationType := str_AuthenticationType quiet_world |}.

(** ** Statements of the specification, as predicates on the code *)

(** "requires connection.key to be present": with no key, the Azure OpenAI
    API-key path would have to fail instead of producing a client. *)
Definition key_presence_required (w : World) (c : Connection) (s : Locals) : Prop :=
  key c = None → ∃ e, res (aoai_client_for w c s) = Raise e.

(** "exactly one variant is instantiated per resolved Connection". *)
Definition exactly_one_client (w : World) (model : string) (c : Connection) (s : Locals) : Prop :=
  length (constructed (trace (create_inference_client w model c s))) = 1.

(** The variant the two-level dispatch selects for the connection types it
    handles: connection type first, then authentication type. *)
Definition chosen_variant (ct : ConnectionType) (auth : AuthenticationType) : option Variant :=
  match ct with
  | AZURE_OPEN_AI =>
      match auth with
      | API_KEY | ENTRA_ID => Some OpenAIVariant
      | OTHER_AUTHENTICATION_TYPE _ => None
      end
  | AZURE_AI_SERVICES =>
      match auth with
      | API_KEY | ENTRA_ID => Some InferenceVariant
      | OTHER_AUTHENTICATION_TYPE _ => None
      end
  | SERVERLESS | OTHER_CONNECTION_TYPE _ => None
  end.

Definition three_reads : list Event :=
  [EEnviron "PROJECT_CONNECTION_STRING";
   EEnviron "CONNECTION_NAME";
   EEnviron "MODEL_DEPLOYMENT_NAME"].

(** Line 58, a plain string literal. *)
Definition azure_openai_header : string :=
  "====> Listing of all Azure Open AI connections (found {len(connections)}):".

(** Line 50, an f-string; [n] is [len(connections)]. *)
Definition all_connections_header (n : nat) : string :=
  "====> Listing of all connections (found " +:+ pretty n +:+ "):".

(** Events that can occur inside the [async with] block. *)
Definition is_query_or_print (e : Event) : bool :=
  match e with
  | EConnectionsList _ | EConnectionsGetDefault _ _ | EConnectionsGet _ _ | EPrint _ => true
  | _ => false
  end.

Definition is_project_enter (e : Event) : bool :=
  match e with EProjectEnter => true | _ => false end.

Definition is_project_exit (e : Event) : bool :=
  match e with EProjectExit => true | _ => false end.

(** ** Further readings of a trace *)

(** The calls to [project_client.connections]. *)
Definition is_query (e : Event) : bool :=
  match e with
  | EConnectionsList _ | EConnectionsGetDefault _ _ | EConnectionsGet _ _ => true
  | _ => false
  end.

Definition queries (t : list Event) : list Event := List.filter is_query t.

(** The four queries of lines 49, 55, 63 and 71, in program order. *)
Definition four_queries (connection_name : string) : list Event :=
  [EConnectionsList None;
   EConnectionsList (Some AZURE_OPEN_AI);
   EConnectionsGetDefault AZURE_AI_SERVICES true;
   EConnectionsGet connection_name true].

(** How many of the first three queries return before one raises. *)
Definition leading_answers (w : World) : nat :=
  match connections_list w None with
  | Raise _ => 0
  | Ok _ =>
      match connections_list w (Some AZURE_OPEN_AI) with
      | Raise _ => 1
      | Ok _ =>
          match connections_get_default w AZURE_AI_SERVICES true with
          | Raise _ => 2
          | Ok _ => 3
          end
      end
  end.

(** The queries a run is expected to make: none unless the three variables
    are set and the project client is built; then the first of the four, and
    each next one exactly when the one before it returned. *)
Definition expected_queries (w : World) : list Event :=
  match environ w !! "PROJECT_CONNECTION_STRING",
        environ w !! "CONNECTION_NAME",
        environ w !! "MODEL_DEPLOYMENT_NAME" with
  | Some pcs, Some cname, Some _ =>
      match from_connection_string w pcs with
      | Ok _ => take (S (leading_answers w)) (four_queries cname)
      | Raise _ => []
      end
  | _, _, _ => []
  end.

(** A completion request: the client it is sent through, the model and the messages. *)
Definition completion_request (e : Event) : option (ChatClient * string * list ChatMessage) :=
  match e with
  | EChatCompletionsCreate cl m ms => Some (OpenAICompatible cl, m, ms)
  | EComplete cl m ms => Some (InferenceService cl, m, ms)
  | _ => None
  end.

Definition completion_requests (t : list Event)
    : list (ChatClient * string * list ChatMessage) :=
  omap completion_request t.

(** The one message both branches send (lines 109-114 and 143). *)
Definition question : list ChatMessage := [UserMessage "How many feet are in a mile?"].

(** Whether the constructor call that asked for the client [cl] returned. *)
Definition constructor_returns (w : World) (cl : ChatClient) : bool :=
  match cl with
  | OpenAICompatible a =>
      match AsyncAzureOpenAI_init w a with Ok _ => true | Raise _ => false end
  | InferenceService i =>
      match credential i with
      | AzureKeyCredential _ => true
      | RawTokenCredential _ =>
          match ChatCompletionsClient_init w i with Ok _ => true | Raise _ => false end
      end
  end.

(** The clients that exist along a trace: those whose constructor call returned. *)
Definition built (w : World) (t : list Event) : list ChatClient :=
  List.filter (constructor_returns w) (constructed t).

Definition client_endpoint (cl : ChatClient) : string :=
  match cl with
  | OpenAICompatible a => azure_endpoint a
  | InferenceService i => endpoint i
  end.

(** Events that lines 79-146 can produce. *)
Definition is_dispatch_event (e : Event) : bool :=
  match e with
  | EPrint _ | EGetBearerTokenProvider _ _
  | ENewAsyncAzureOpenAI _ | ENewChatCompletionsClient _
  | EChatCompletionsCreate _ _ _ | EComplete _ _ _
  | ECloseAsyncAzureOpenAI _ | ECloseChatCompletionsClient _ => true
  | _ => false
  end.

(** Events that lines 37-44 can produce. *)
Definition is_configuration_event (e : Event) : bool :=
  is_environ_read e || is_bootstrap e.

(** More inputs: a connection of a type the sample does not handle, a key
    that is present, and worlds in which one service fails or answers oddly. *)
Definition serverless_connection : Connection :=
  example_connection SERVERLESS API_KEY (Some "0123456789abcdef") None.
Definition services_key_connection : Connection :=
  example_connection AZURE_AI_SERVICES API_KEY (Some "0123456789abcdef") None.

Definition serverless_world : World :=
  example_world [openai_key_connection] services_entra_connection
    serverless_connection example_answer.

Definition no_choice_world : World :=
  example_world [openai_key_connection] services_entra_connection
    openai_key_connection (Ok {| choices := [] |}).

Definition null_content_world : World :=
  example_world [openai_key_connection] services_entra_connection
    services_key_connection (Ok {| choices := [None; Some "ignored"] |}).

(** No default Azure AI Services connection is configured. *)
Definition no_default_world : World :=
  {| environ := environ quiet_world;
     from_connection_string := from_connection_string quiet_world;
     connections_list := connections_list quiet_world;
     connections_get_default := λ _ _, Raise (ExternalError "ResourceNotFoundError");
     connections_get := connections_get quiet_world;
     AsyncAzureOpenAI_init := AsyncAzureOpenAI_init quiet_world;
     ChatCompletionsClient_init := ChatCompletionsClient_init quiet_world;
     chat_completions_create := chat_completions_create quiet_world;
     complete := complete quiet_world;
     str_Connection := str_Connection quiet_world;
     str_AuthenticationType := str_AuthenticationType quiet_world |}.

(** The connection string is rejected by [from_connection_string]. *)
Definition bad_connection_string_world : World :=
  {| environ := environ quiet_world;
     from_connection_string := λ _, Raise (ValueError "Invalid connection string format");
     connections_list := connections_list quiet_world;
     connections_get_default := connections_get_default quiet_world;
     connections_get := connections_get quiet_world;
     AsyncAzureOpenAI_init := AsyncAzureOpenAI_init quiet_world;
     ChatCompletionsClient_init := ChatCompletionsClient_init quiet_world;
     chat_completions_create := chat_completions_create quiet_world;
     complete := complete quiet_world;
     str_Connection := str_Connection quiet_world;
     str_AuthenticationType := str_AuthenticationType quiet_world |}.

(** ** Basic facts about the monad and the helpers *)

Lemma bind_unfold {A B} (m : M A) (f : A → M B) (s : Locals) :
  (m ≫= f) s =
    match res (m s) with
    | Ok a => {| res := res (f a (locals (m s)));
                 locals := locals (f a (locals (m s)));
                 trace := trace (m s) ++ trace (f a (locals (m s))) |}
    | Raise e => {| res := Raise e; locals := locals (m s); trace := trace (m s) |}
    end.
Proof. reflexivity. Qed.

Lemma or_empty_default (x : option string) : or_empty x = default EmptyString x.
Proof. destruct x as [k|]; simpl; [|done]. by case_decide. Qed.

Lemma constructed_app (t1 t2 : list Event) :
  constructed (t1 ++ t2) = constructed t1 ++ constructed t2.
Proof. apply omap_app. Qed.

Lemma bearer_token_providers_app (t1 t2 : list Event) :
  bearer_token_providers (t1 ++ t2) = bearer_token_providers t1 ++ bearer_token_providers t2.
Proof. apply omap_app. Qed.

Lemma print_first_choice_trace (r : ChatCompletions) (s : Locals) :
  trace (print_first_choice r s) = [] ∨ ∃ line, trace (print_first_choice r s) = [EPrint line].
Proof. unfold print_first_choice. destruct (choices r); simpl; eauto. Qed.

Lemma print_first_choice_constructed (r : ChatCompletions) (s : Locals) :
  constructed (trace (print_first_choice r s)) = [].
Proof. by destruct (print_first_choice_trace r s) as [->|[? ->]]. Qed.

Lemma print_first_choice_bearer (r : ChatCompletions) (s : Locals) :
  bearer_token_providers (trace (print_first_choice r s)) = [].
Proof. by destruct (print_first_choice_trace r s) as [->|[? ->]]. Qed.

Create Rewrite HintDb invoker.

#[local] Hint Rewrite print_first_choice_constructed print_first_choice_bearer : invoker.

(** Whatever the constructor and the completion service answer, the rest of
    either branch (one completion call, [close], one [print]) constructs
    nothing and wraps nothing. *)
Ltac after_factory :=
  unfold new_AsyncAzureOpenAI, new_ChatCompletionsClient, get_bearer_token_provider;
  repeat (progress
            (rewrite ?bind_unfold; simpl;
             repeat match goal with
                    | |- context [AsyncAzureOpenAI_init ?w ?cl] =>
                        destruct (AsyncAzureOpenAI_init w cl) as [[]|]; simpl
                    | |- context [ChatCompletionsClient_init ?w ?cl] =>
                        destruct (ChatCompletionsClient_init w cl) as [[]|]; simpl
                    | |- context [chat_completions_create ?w ?cl ?m ?ms] =>
                        destruct (chat_completions_create w cl m ms); simpl
                    | |- context [complete ?w ?cl ?m ?ms] =>
                        destruct (complete w cl m ms); simpl
                    end));
  autorewrite with invoker; auto.

(** Splits the goal along the two-level dispatch, the outcome of the
    constructor call and the answer of the completion service, down to the
    shape of [choices]. *)
Ltac dispatch_cases :=
  unfold create_inference_client, aoai_client_for, inference_client_for, print_first_choice,
    new_AsyncAzureOpenAI, new_ChatCompletionsClient, get_bearer_token_provider;
  repeat case_decide;
  repeat (progress
            (rewrite ?bind_unfold; simpl;
             repeat match goal with
                    | |- context [AsyncAzureOpenAI_init ?w ?cl] =>
                        let E := fresh "Hinit" in
                        destruct (AsyncAzureOpenAI_init w cl) as [[]|] eqn:E; simpl
                    | |- context [ChatCompletionsClient_init ?w ?cl] =>
                        let E := fresh "Hinit" in
                        destruct (ChatCompletionsClient_init w cl) as [[]|] eqn:E; simpl
                    | |- context [chat_completions_create ?w ?cl ?m ?ms] =>
                        let E := fresh "Hanswer" in
                        destruct (chat_completions_create w cl m ms) as [[[|? ?]]|] eqn:E; simpl
                    | |- context [complete ?w ?cl ?m ?ms] =>
                        let E := fresh "Hanswer" in
                        destruct (complete w cl m ms) as [[[|? ?]]|] eqn:E; simpl
                    end)).

(** ** The client factory *)

Section ClientFactory.

Context (w : World) (model : string) (c : Connection) (s : Locals).

(** C1, as the code has it: on an Azure OpenAI connection with API-key
    authentication the factory prints one line and calls [AsyncAzureOpenAI]
    once, with [api_key] set to [connection.key] just as it is stored, the
    connection's endpoint and API version 2024-06-01.  It tests nothing
    itself: it returns the client exactly when that call returns and raises
    what the call raises otherwise, with or without a key.  No other client is
    constructed on this path, and [get_bearer_token_provider] is never called. *)
Theorem aoai_api_key_uses_static_key :
  connection_type c = AZURE_OPEN_AI →
  authentication_type c = API_KEY →
  let o := create_inference_client w model c s in
  let cl := {| aoai_auth := api_key (key c);
               azure_endpoint := endpoint_url c;
               api_version := "2024-06-01" |} in
  constructed (trace o) = [OpenAICompatible cl]
  ∧ bearer_token_providers (trace o) = []
  ∧ trace (aoai_client_for w c s)
    = [EPrint "====> Creating AzureOpenAI client using API key authentication";
       ENewAsyncAzureOpenAI cl]
  ∧ res (aoai_client_for w c s)
    = match AsyncAzureOpenAI_init w cl with
      | Ok _ => Ok cl
      | Raise e => Raise e
      end.
Proof.
  intros Hct Hauth. unfold create_inference_client, aoai_client_for.
  rewrite Hct, Hauth. repeat split; after_factory.
Qed.

(** C2: on an Azure OpenAI connection with Entra ID authentication the
    factory calls [get_bearer_token_provider] exactly once, on the connection's
    token credential and the scope
    ["https://cognitiveservices.azure.com/.default"], and the one client it
    constructs is an [AsyncAzureOpenAI] holding that provider. *)
Theorem aoai_entra_id_wraps_once :
  connection_type c = AZURE_OPEN_AI →
  authentication_type c = ENTRA_ID →
  let o := create_inference_client w model c s in
  let p := {| provider_credential := token_credential c;
              provider_scope := "https://cognitiveservices.azure.com/.default" |} in
  bearer_token_providers (trace o) = [p]
  ∧ constructed (trace o) =
      [OpenAICompatible {| aoai_auth := azure_ad_token_provider p;
                           azure_endpoint := endpoint_url c;
                           api_version := "2024-06-01" |}].
Proof.
  intros Hct Hauth. unfold create_inference_client, aoai_client_for.
  rewrite Hct, Hauth. split; after_factory.
Qed.

(** C3: on an Azure OpenAI or Azure AI Services connection whose
    authentication type is neither API key nor Entra ID, the flow raises
    [ValueError] with a message that carries the rendered authentication type
    (the spec's UnsupportedAuthenticationError), and it has made no call at
    all by then: no client of either kind is constructed. *)
Theorem unsupported_authentication_fails :
  connection_type c = AZURE_OPEN_AI ∨ connection_type c = AZURE_AI_SERVICES →
  authentication_type c ≠ API_KEY →
  authentication_type c ≠ ENTRA_ID →
  let o := create_inference_client w model c s in
  res o = Raise (ValueError ("Authentication type "
                             +:+ str_AuthenticationType w (authentication_type c)
                             +:+ " not supported."))
  ∧ trace o = []
  ∧ constructed (trace o) = [].
Proof.
  intros Hct Hkey Hentra.
  unfold create_inference_client, aoai_client_for, inference_client_for.
  destruct Hct as [-> | ->]; simpl; rewrite !bind_unfold;
    repeat case_decide; done.
Qed.

(** C4: on an Azure AI Services connection with API-key authentication
    and no key, the factory returns normally, and the one client it constructs
    is a [ChatCompletionsClient] whose credential is an [AzureKeyCredential]
    holding the empty string. *)
Theorem inference_api_key_missing_key_tolerated :
  connection_type c = AZURE_AI_SERVICES →
  authentication_type c = API_KEY →
  key c = None →
  let o := create_inference_client w model c s in
  let cl := {| endpoint := endpoint_url c; credential := AzureKeyCredential EmptyString |} in
  res (inference_client_for w c s) = Ok cl
  ∧ constructed (trace o) = [InferenceService cl].
Proof.
  intros Hct Hauth Hkey. unfold create_inference_client, inference_client_for.
  rewrite Hct, Hauth, Hkey. split; after_factory.
Qed.

(** C5: on an Azure AI Services connection with Entra ID authentication
    the one client constructed is a [ChatCompletionsClient] whose credential is
    the connection's token credential itself, and [get_bearer_token_provider]
    is not called (unlike on the Azure OpenAI path). *)
Theorem inference_entra_id_raw_credential :
  connection_type c = AZURE_AI_SERVICES →
  authentication_type c = ENTRA_ID →
  let o := create_inference_client w model c s in
  constructed (trace o) =
    [InferenceService {| endpoint := endpoint_url c;
                         credential := RawTokenCredential (token_credential c) |}]
  ∧ bearer_token_providers (trace o) = [].
Proof.
  intros Hct Hauth. unfold create_inference_client, inference_client_for.
  rewrite Hct, Hauth. split; after_factory.
Qed.

End ClientFactory.

(** ** Running the [async with] block *)

Lemma for_connection_in_print (w : World) (cs : list Connection) (s : Locals) :
  for_connection_in cs (print_connection w) s =
    {| res := Ok tt;
       locals := {| connections := connections s;
                    connection := from_option Some (connection s) (last cs) |};
       trace := (λ x, EPrint (str_Connection w x)) <$> cs |}.
Proof.
  revert s. induction cs as [|x cs IH]; intros s.
  - by destruct s.
  - cbn [for_connection_in]. rewrite !bind_unfold. simpl. rewrite IH. simpl.
    f_equal. f_equal. destruct cs as [|y cs']; [done|].
    change (last (x :: y :: cs')) with (last (y :: cs')).
    by destruct (proj2 (last_is_Some (y :: cs'))) as [z ->].
Qed.

Lemma with_body_run (w : World) (connection_name : string) (s : Locals)
    (l1 l2 : list Connection) (d c : Connection) :
  connections_list w None = Ok l1 →
  connections_list w (Some AZURE_OPEN_AI) = Ok l2 →
  connections_get_default w AZURE_AI_SERVICES true = Ok d →
  connections_get w connection_name true = Ok c →
  with_body w connection_name s =
    {| res := Ok tt;
       locals := {| connections := Some l2; connection := Some c |};
       trace := with_body_trace w connection_name l1 l2 d c |}.
Proof.
  intros H1 H2 Hd Hc. unfold with_body, with_body_trace.
  unfold project_client_connections_list, project_client_connections_get_default,
    project_client_connections_get.
  rewrite bind_unfold. simpl. rewrite H1. simpl.
  rewrite !bind_unfold, !for_connection_in_print. simpl.
  rewrite H2. simpl.
  rewrite !bind_unfold, !for_connection_in_print. simpl.
  rewrite Hd. simpl. rewrite Hc. reflexivity.
Qed.

Lemma sample_after_bootstrap (w : World) (s : Locals) (pcs cname model : string) :
  environ w !! "PROJECT_CONNECTION_STRING" = Some pcs →
  environ w !! "CONNECTION_NAME" = Some cname →
  environ w !! "MODEL_DEPLOYMENT_NAME" = Some model →
  from_connection_string w pcs = Ok tt →
  sample_connections_async w s =
    after (bootstrap_trace pcs)
      ((async_with_project_client (with_body w cname)
        ≫= λ _, get_connection ≫= create_inference_client w model) s).
Proof.
  intros Hp Hn Hm Hf. unfold sample_connections_async, os_environ.
  unfold AIProjectClient_from_connection_string, DefaultAzureCredential.
  rewrite bind_unfold. simpl. rewrite Hp. simpl.
  rewrite bind_unfold. simpl. rewrite Hn. simpl.
  rewrite bind_unfold. simpl. rewrite Hm. simpl.
  rewrite bind_unfold. simpl. rewrite Hf. reflexivity.
Qed.

Lemma async_with_project_client_unfold {A} (body : M A) (s : Locals) :
  async_with_project_client body s =
    {| res := res (body s);
       locals := locals (body s);
       trace := EProjectEnter :: trace (body s) ++ [EProjectExit] |}.
Proof. reflexivity. Qed.

(** The whole run when nothing fails before line 79. *)
Lemma sample_run (w : World) (s : Locals) (pcs cname model : string)
    (l1 l2 : list Connection) (d c : Connection) :
  environ w !! "PROJECT_CONNECTION_STRING" = Some pcs →
  environ w !! "CONNECTION_NAME" = Some cname →
  environ w !! "MODEL_DEPLOYMENT_NAME" = Some model →
  from_connection_string w pcs = Ok tt →
  connections_list w None = Ok l1 →
  connections_list w (Some AZURE_OPEN_AI) = Ok l2 →
  connections_get_default w AZURE_AI_SERVICES true = Ok d →
  connections_get w cname true = Ok c →
  sample_connections_async w s =
    after (bootstrap_trace pcs
             ++ EProjectEnter :: with_body_trace w cname l1 l2 d c ++ [EProjectExit])
      (create_inference_client w model c {| connections := Some l2; connection := Some c |}).
Proof.
  intros Hp Hn Hm Hf H1 H2 Hd Hc.
  rewrite (sample_after_bootstrap w s pcs cname model) by done.
  rewrite bind_unfold, async_with_project_client_unfold.
  rewrite (with_body_run w cname s l1 l2 d c) by done.
  unfold after. simpl. by rewrite <- !app_assoc.
Qed.

Lemma trace_bind_prefix {A B} (m : M A) (f : A → M B) (s : Locals) :
  ∃ rest, trace ((m ≫= f) s) = trace (m s) ++ rest.
Proof.
  rewrite bind_unfold. destruct (res (m s)); simpl; [eauto|].
  exists []. by rewrite app_nil_r.
Qed.

(** With both listings answered, lines 48-60 always produce the same events,
    whatever the two later queries do. *)
Lemma with_body_listing (w : World) (cname : string) (s : Locals)
    (l1 l2 : list Connection) :
  connections_list w None = Ok l1 →
  connections_list w (Some AZURE_OPEN_AI) = Ok l2 →
  ∃ rest,
    trace (with_body w cname s) =
      [EConnectionsList None; EPrint (all_connections_header (length l1))]
      ++ printed w l1
      ++ [EConnectionsList (Some AZURE_OPEN_AI); EPrint azure_openai_header]
      ++ printed w l2 ++ rest.
Proof.
  intros H1 H2. unfold with_body.
  unfold project_client_connections_list, project_client_connections_get_default,
    project_client_connections_get.
  rewrite bind_unfold. simpl. rewrite H1. simpl.
  rewrite !bind_unfold, !for_connection_in_print. simpl.
  rewrite H2. simpl.
  rewrite !bind_unfold, !for_connection_in_print. simpl.
  destruct (connections_get_default w AZURE_AI_SERVICES true) as [d|e]; simpl.
  - destruct (connections_get w cname true) as [c|e]; simpl; eexists; reflexivity.
  - eexists; reflexivity.
Qed.

Lemma constructed_none (t : list Event) :
  Forall (λ e, construction e = None) t → constructed t = [].
Proof. induction 1 as [|e t He _ IH]; [done|]. unfold constructed. simpl. by rewrite He. Qed.

Lemma bearer_none (t : list Event) :
  Forall (λ e, bearer_wrapping e = None) t → bearer_token_providers t = [].
Proof.
  induction 1 as [|e t He _ IH]; [done|]. unfold bearer_token_providers. simpl. by rewrite He.
Qed.

(** Discharges [Forall P t] for a trace made of literal events and [printed] runs. *)
Ltac each_event :=
  repeat first
    [ apply Forall_nil_2
    | apply Forall_cons_2; [reflexivity|]
    | apply Forall_app_2
    | try unfold printed; apply Forall_fmap, Forall_true; intros ?; reflexivity ].

Lemma before_line_79_constructed (w : World) (pcs cname : string)
    (l1 l2 : list Connection) (d c : Connection) :
  constructed (bootstrap_trace pcs
                 ++ EProjectEnter :: with_body_trace w cname l1 l2 d c ++ [EProjectExit]) = [].
Proof. apply constructed_none. unfold with_body_trace, bootstrap_trace. each_event. Qed.

Lemma before_line_79_bearer (w : World) (pcs cname : string)
    (l1 l2 : list Connection) (d c : Connection) :
  bearer_token_providers
    (bootstrap_trace pcs
       ++ EProjectEnter :: with_body_trace w cname l1 l2 d c ++ [EProjectExit]) = [].
Proof. apply bearer_none. unfold with_body_trace, bootstrap_trace. each_event. Qed.

Lemma with_body_events (w : World) (cname : string) (s : Locals) :
  Forall (λ e, is_query_or_print e = true) (trace (with_body w cname s)).
Proof.
  unfold with_body.
  unfold project_client_connections_list, project_client_connections_get_default,
    project_client_connections_get.
  rewrite bind_unfold. simpl.
  destruct (connections_list w None) as [l1|]; simpl; [|each_event].
  rewrite !bind_unfold, !for_connection_in_print. simpl.
  destruct (connections_list w (Some AZURE_OPEN_AI)) as [l2|]; simpl; [|each_event].
  rewrite !bind_unfold, !for_connection_in_print. simpl.
  destruct (connections_get_default w AZURE_AI_SERVICES true) as [d|]; simpl; [|each_event].
  destruct (connections_get w cname true) as [c|]; simpl; each_event.
Qed.

(** The block ends normally only if all four queries were answered. *)
Lemma with_body_ok (w : World) (cname : string) (s : Locals) :
  res (with_body w cname s) = Ok tt →
  ∃ l1 l2 d c,
    connections_list w None = Ok l1
    ∧ connections_list w (Some AZURE_OPEN_AI) = Ok l2
    ∧ connections_get_default w AZURE_AI_SERVICES true = Ok d
    ∧ connections_get w cname true = Ok c.
Proof.
  unfold with_body.
  unfold project_client_connections_list, project_client_connections_get_default,
    project_client_connections_get.
  rewrite bind_unfold. simpl.
  destruct (connections_list w None) as [l1|] eqn:H1; simpl; [|done].
  rewrite !bind_unfold, !for_connection_in_print. simpl.
  destruct (connections_list w (Some AZURE_OPEN_AI)) as [l2|] eqn:H2; simpl; [|done].
  rewrite !bind_unfold, !for_connection_in_print. simpl.
  destruct (connections_get_default w AZURE_AI_SERVICES true) as [d|] eqn:Hd; simpl; [|done].
  destruct (connections_get w cname true) as [c|] eqn:Hc; simpl; [|done].
  intros _. by exists l1, l2, d, c.
Qed.

(** Either the run constructs no client, or it got through lines 37-76. *)
Lemma sample_constructs_only_after_line_76 (w : World) (s : Locals) :
  constructed (trace (sample_connections_async w s)) = []
  ∨ ∃ pcs cname model l1 l2 d c,
      environ w !! "PROJECT_CONNECTION_STRING" = Some pcs
      ∧ environ w !! "CONNECTION_NAME" = Some cname
      ∧ environ w !! "MODEL_DEPLOYMENT_NAME" = Some model
      ∧ from_connection_string w pcs = Ok tt
      ∧ connections_list w None = Ok l1
      ∧ connections_list w (Some AZURE_OPEN_AI) = Ok l2
      ∧ connections_get_default w AZURE_AI_SERVICES true = Ok d
      ∧ connections_get w cname true = Ok c.
Proof.
  destruct (environ w !! "PROJECT_CONNECTION_STRING") as [pcs|] eqn:Hp;
    [destruct (environ w !! "CONNECTION_NAME") as [cname|] eqn:Hn;
       [destruct (environ w !! "MODEL_DEPLOYMENT_NAME") as [model|] eqn:Hm;
          [destruct (from_connection_string w pcs) as [[]|] eqn:Hf|]|]|].
  2-5: left; unfold sample_connections_async, os_environ,
         AIProjectClient_from_connection_string, DefaultAzureCredential;
       rewrite bind_unfold; simpl; rewrite Hp; simpl; try done;
       rewrite bind_unfold; simpl; rewrite Hn; simpl; try done;
       rewrite bind_unfold; simpl; rewrite Hm; simpl; try done;
       rewrite bind_unfold; simpl; rewrite Hf; simpl; done.
  destruct (res (with_body w cname s)) as [[]|e] eqn:Hres.
  - right. destruct (with_body_ok w cname s Hres) as (l1 & l2 & d & c & H1 & H2 & Hd & Hc).
    by exists pcs, cname, model, l1, l2, d, c.
  - left. rewrite (sample_after_bootstrap w s pcs cname model) by done.
    unfold after. cbn [trace].
    rewrite bind_unfold, async_with_project_client_unfold. cbn [res].
    rewrite Hres. cbn [trace].
    apply constructed_none. unfold bootstrap_trace.
    repeat (apply Forall_cons_2; [done|]).
    apply Forall_app_2; [|by repeat constructor].
    eapply Forall_impl; [apply with_body_events|]. by intros [].
Qed.

Section Flow.

Context (w : World) (s : Locals).

(** C9: whenever the run gets as far as line 79, the connection it
    dispatches on is the one [connections.get(connection_name, True)] returned,
    which is the last query of the trace.  The default Azure AI Services
    connection [d] fetched just before is printed and then overwritten: the
    clients constructed by the run are those constructed from [c] alone.  And
    a run that constructs a client at all is such a run, so in every run the
    clients come from the connection fetched by name. *)
Theorem dispatch_uses_connection_fetched_by_name :
  let o := sample_connections_async w s in
  (∀ (pcs cname model : string) (l1 l2 : list Connection) (d c : Connection),
     environ w !! "PROJECT_CONNECTION_STRING" = Some pcs →
     environ w !! "CONNECTION_NAME" = Some cname →
     environ w !! "MODEL_DEPLOYMENT_NAME" = Some model →
     from_connection_string w pcs = Ok tt →
     connections_list w None = Ok l1 →
     connections_list w (Some AZURE_OPEN_AI) = Ok l2 →
     connections_get_default w AZURE_AI_SERVICES true = Ok d →
     connections_get w cname true = Ok c →
     let at_line_79 := {| connections := Some l2; connection := Some c |} in
     let dispatch := create_inference_client w model c at_line_79 in
     o = after (bootstrap_trace pcs
                  ++ EProjectEnter :: with_body_trace w cname l1 l2 d c ++ [EProjectExit])
           dispatch
     ∧ constructed (trace o) = constructed (trace dispatch)
     ∧ bearer_token_providers (trace o) = bearer_token_providers (trace dispatch))
  ∧ (constructed (trace o) ≠ [] →
     ∃ (cname model : string) (c : Connection) (at_line_79 : Locals),
       environ w !! "CONNECTION_NAME" = Some cname
       ∧ connections_get w cname true = Ok c
       ∧ connection at_line_79 = Some c
       ∧ constructed (trace o)
         = constructed (trace (create_inference_client w model c at_line_79))).
Proof.
  intros o.
  assert (Hrun : ∀ (pcs cname model : string) (l1 l2 : list Connection) (d c : Connection),
     environ w !! "PROJECT_CONNECTION_STRING" = Some pcs →
     environ w !! "CONNECTION_NAME" = Some cname →
     environ w !! "MODEL_DEPLOYMENT_NAME" = Some model →
     from_connection_string w pcs = Ok tt →
     connections_list w None = Ok l1 →
     connections_list w (Some AZURE_OPEN_AI) = Ok l2 →
     connections_get_default w AZURE_AI_SERVICES true = Ok d →
     connections_get w cname true = Ok c →
     let at_line_79 := {| connections := Some l2; connection := Some c |} in
     let dispatch := create_inference_client w model c at_line_79 in
     o = after (bootstrap_trace pcs
                  ++ EProjectEnter :: with_body_trace w cname l1 l2 d c ++ [EProjectExit])
           dispatch
     ∧ constructed (trace o) = constructed (trace dispatch)
     ∧ bearer_token_providers (trace o) = bearer_token_providers (trace dispatch)).
  { intros pcs cname model l1 l2 d c Hp Hn Hm Hf H1 H2 Hd Hc at_line_79 dispatch.
    subst o. rewrite (sample_run w s pcs cname model l1 l2 d c) by done.
    fold at_line_79. fold dispatch. split; [done|].
    unfold after. cbn [trace].
    rewrite constructed_app, bearer_token_providers_app.
    by rewrite before_line_79_constructed, before_line_79_bearer. }
  split; [exact Hrun|].
  intros Hsome.
  destruct (sample_constructs_only_after_line_76 w s)
    as [Hnone|(pcs & cname & model & l1 & l2 & d & c & Hp & Hn & Hm & Hf & H1 & H2 & Hd & Hc)];
    [done|].
  destruct (Hrun pcs cname model l1 l2 d c Hp Hn Hm Hf H1 H2 Hd Hc) as (_ & Hmade & _).
  by exists cname, model, c, {| connections := Some l2; connection := Some c |}.
Qed.

(** C10: whatever the filtered listing returns, the line printed before it
    is the fixed text of line 58, with the characters [{len(connections)}] in
    it, since that string has no [f] prefix; the header of the first listing
    (line 50) does carry the number of connections found. *)
Theorem azure_openai_header_is_not_interpolated
    (pcs cname model : string) (l1 l2 : list Connection) :
  environ w !! "PROJECT_CONNECTION_STRING" = Some pcs →
  environ w !! "CONNECTION_NAME" = Some cname →
  environ w !! "MODEL_DEPLOYMENT_NAME" = Some model →
  from_connection_string w pcs = Ok tt →
  connections_list w None = Ok l1 →
  connections_list w (Some AZURE_OPEN_AI) = Ok l2 →
  (∃ rest,
     trace (sample_connections_async w s) =
       bootstrap_trace pcs
       ++ [EProjectEnter;
           EConnectionsList None;
           EPrint ("====> Listing of all connections (found "
                   +:+ pretty (length l1) +:+ "):")]
       ++ printed w l1
       ++ [EConnectionsList (Some AZURE_OPEN_AI);
           EPrint azure_openai_header]
       ++ printed w l2 ++ rest)
  ∧ azure_openai_header =
      "====> Listing of all Azure Open AI connections (found "
      +:+ "{len(connections)}" +:+ "):".
Proof.
  intros Hp Hn Hm Hf H1 H2. split; [|done].
  rewrite (sample_after_bootstrap w s pcs cname model) by done.
  destruct (trace_bind_prefix (async_with_project_client (with_body w cname))
              (λ _, get_connection ≫= create_inference_client w model) s) as [r1 E1].
  destruct (with_body_listing w cname s l1 l2 H1 H2) as [r2 E2].
  unfold after. cbn [trace]. rewrite E1, async_with_project_client_unfold.
  cbn [trace]. rewrite E2.
  exists (r2 ++ [EProjectExit] ++ r1).
  repeat (simpl; rewrite <- ?app_assoc). reflexivity.
Qed.

End Flow.

(** ** Configuration *)

(** C7: if one of the three environment variables is absent, the run
    ends with [KeyError] on an absent variable, having done nothing but read
    the environment (so no network call was made); and in every run, any
    event that is not an environment read, the session bootstrap included,
    comes after the three reads, made in the order of lines 37-39. *)
Theorem missing_environment_variable_is_fatal (w : World) (s : Locals) :
  let o := sample_connections_async w s in
  (environ w !! "PROJECT_CONNECTION_STRING" = None
   ∨ environ w !! "CONNECTION_NAME" = None
   ∨ environ w !! "MODEL_DEPLOYMENT_NAME" = None →
   (∃ k, environ w !! k = None ∧ res o = Raise (KeyError k))
   ∧ trace o `prefix_of` three_reads
   ∧ List.filter is_network_call (trace o) = []
   ∧ List.filter is_bootstrap (trace o) = [])
  ∧ (∀ (i : nat) e, trace o !! i = Some e → is_environ_read e = false →
       take 3 (trace o) = three_reads ∧ (3 ≤ i)%nat).
Proof.
  intros o. subst o.
  destruct (environ w !! "PROJECT_CONNECTION_STRING") as [pcs|] eqn:Hp;
    [destruct (environ w !! "CONNECTION_NAME") as [cname|] eqn:Hn;
       [destruct (environ w !! "MODEL_DEPLOYMENT_NAME") as [model|] eqn:Hm|]|].
  - split; [intros [?|[?|?]]; done|].
    assert (∃ rest, trace (sample_connections_async w s)
                    = three_reads ++ EDefaultAzureCredential :: rest) as [rest ->].
    { unfold sample_connections_async, os_environ.
      rewrite bind_unfold. simpl. rewrite Hp. simpl.
      rewrite bind_unfold. simpl. rewrite Hn. simpl.
      rewrite bind_unfold. simpl. rewrite Hm. simpl.
      rewrite bind_unfold. simpl.
      match goal with
      | |- context [res ?x] => destruct (res x); simpl; eauto
      end. }
    intros i e Hi He. split; [done|].
    destruct i as [|[|[|i]]]; simpl in Hi; [by simplify_eq..|lia].
  - assert (sample_connections_async w s =
              {| res := Raise (KeyError "MODEL_DEPLOYMENT_NAME");
                 locals := s; trace := three_reads |}) as ->.
    { unfold sample_connections_async, os_environ.
      rewrite bind_unfold. simpl. rewrite Hp. simpl.
      rewrite bind_unfold. simpl. rewrite Hn. simpl.
      rewrite bind_unfold. simpl. by rewrite Hm. }
    cbn [res trace]. split.
    + intros _. repeat split; [by eexists|done..].
    + intros i e Hi He.
      destruct i as [|[|[|i]]]; simpl in Hi; by simplify_eq.
  - assert (sample_connections_async w s =
              {| res := Raise (KeyError "CONNECTION_NAME");
                 locals := s; trace := take 2 three_reads |}) as ->.
    { unfold sample_connections_async, os_environ.
      rewrite bind_unfold. simpl. rewrite Hp. simpl.
      rewrite bind_unfold. simpl. by rewrite Hn. }
    cbn [res trace]. split.
    + intros _. repeat split; [by eexists|by exists [EEnviron "MODEL_DEPLOYMENT_NAME"]|done..].
    + intros i e Hi He.
      destruct i as [|[|i]]; simpl in Hi; by simplify_eq.
  - assert (sample_connections_async w s =
              {| res := Raise (KeyError "PROJECT_CONNECTION_STRING");
                 locals := s; trace := take 1 three_reads |}) as ->.
    { unfold sample_connections_async, os_environ.
      rewrite bind_unfold. simpl. by rewrite Hp. }
    cbn [res trace]. split.
    + intros _. repeat split; [by eexists|by eexists|done..].
    + intros i e Hi He.
      destruct i as [|i]; simpl in Hi; by simplify_eq.
Qed.

(** ** One client at most *)

(** C8, as the code has it: no connection leads to more than one
    constructor call; and for the two connection types the dispatch handles,
    the variant is a function of the connection type and then of the
    authentication type, with exactly one client for API key and Entra ID and
    none for any other authentication type. *)
Theorem at_most_one_client_chosen_by_type_then_auth
    (w : World) (model : string) (c : Connection) (s : Locals) :
  let made := constructed (trace (create_inference_client w model c s)) in
  (length made ≤ 1)%nat
  ∧ (connection_type c = AZURE_OPEN_AI ∨ connection_type c = AZURE_AI_SERVICES →
     variant_of <$> made
       = option_list (chosen_variant (connection_type c) (authentication_type c))).
Proof.
  intros made. subst made.
  unfold create_inference_client, aoai_client_for, inference_client_for.
  destruct (connection_type c) eqn:Hct, (authentication_type c) eqn:Hauth;
    (split; [|intros [?|?]; try done]); after_factory.
Qed.

(** ** Release of the session and of the chat client *)

Lemma create_inference_client_events (w : World) (model : string) (c : Connection)
    (s : Locals) :
  Forall (λ e, is_project_enter e = false ∧ is_project_exit e = false)
         (trace (create_inference_client w model c s)).
Proof.
  dispatch_cases; repeat first [apply Forall_nil_2 | apply Forall_cons_2; [done|]].
Qed.

Lemma filter_none (P : Event → bool) (t : list Event) :
  Forall (λ e, P e = false) t → List.filter P t = [].
Proof. induction 1 as [|e t He _ IH]; [done|]. simpl. by rewrite He. Qed.

(** The project session is entered at most once, and whenever it is entered
    it is exited, on normal and on exceptional paths alike. *)
Lemma project_session_always_released (w : World) (s : Locals) :
  let t := trace (sample_connections_async w s) in
  (List.filter is_project_enter t = [] ∧ List.filter is_project_exit t = [])
  ∨ (List.filter is_project_enter t = [EProjectEnter]
     ∧ List.filter is_project_exit t = [EProjectExit]).
Proof.
  intros t. subst t.
  destruct (environ w !! "PROJECT_CONNECTION_STRING") as [pcs|] eqn:Hp;
    [destruct (environ w !! "CONNECTION_NAME") as [cname|] eqn:Hn;
       [destruct (environ w !! "MODEL_DEPLOYMENT_NAME") as [model|] eqn:Hm;
          [destruct (from_connection_string w pcs) as [[]|] eqn:Hf|]|]|].
  2-5: left; unfold sample_connections_async, os_environ,
         AIProjectClient_from_connection_string, DefaultAzureCredential;
       rewrite bind_unfold; simpl; rewrite Hp; simpl; try done;
       rewrite bind_unfold; simpl; rewrite Hn; simpl; try done;
       rewrite bind_unfold; simpl; rewrite Hm; simpl; try done;
       rewrite bind_unfold; simpl; rewrite Hf; simpl; done.
  right. rewrite (sample_after_bootstrap w s pcs cname model) by done.
  unfold after. cbn [trace]. rewrite bind_unfold, async_with_project_client_unfold.
  pose proof (with_body_events w cname s) as Hbody.
  destruct (with_body w cname s) as [rb lb tb]. cbn [res locals trace] in *.
  assert (List.filter is_project_enter tb = []) as Hb1.
  { apply filter_none. eapply Forall_impl; [exact Hbody|]. by intros []. }
  assert (List.filter is_project_exit tb = []) as Hb2.
  { apply filter_none. eapply Forall_impl; [exact Hbody|]. by intros []. }
  assert (∃ td, Forall (λ e, is_project_enter e = false ∧ is_project_exit e = false) td
                ∧ trace match rb with
                        | Ok a =>
                            {| res := res ((get_connection ≫= create_inference_client w model) lb);
                               locals := locals ((get_connection ≫= create_inference_client w model) lb);
                               trace := (EProjectEnter :: tb ++ [EProjectExit])
                                        ++ trace ((get_connection ≫= create_inference_client w model) lb) |}
                        | Raise e =>
                            {| res := Raise e; locals := lb;
                               trace := EProjectEnter :: tb ++ [EProjectExit] |}
                        end
                  = EProjectEnter :: tb ++ [EProjectExit] ++ td) as (td & Hd & ->).
  { destruct rb as [[]|e]; cbn [trace].
    - rewrite bind_unfold. unfold get_connection.
      destruct (connection lb) as [c|]; unfold ret, raise; cbn [res locals trace].
      + exists (trace (create_inference_client w model c lb)).
        split; [apply create_inference_client_events|].
        simpl. by rewrite <- app_assoc.
      + exists []. split; [done|]. simpl. by rewrite !app_nil_r.
    - exists []. by split. }
  assert (List.filter is_project_enter td = []) as Hd1.
  { apply filter_none. eapply Forall_impl; [exact Hd|]. by intros ? [? ?]. }
  assert (List.filter is_project_exit td = []) as Hd2.
  { apply filter_none. eapply Forall_impl; [exact Hd|]. by intros ? [? ?]. }
  unfold bootstrap_trace.
  rewrite !List.filter_app. cbn [List.filter is_project_enter is_project_exit app].
  rewrite !List.filter_app. cbn [List.filter is_project_enter is_project_exit app].
  by rewrite Hb1, Hb2, Hd1, Hd2.
Qed.

(** A constructed chat client is closed when the completion call returns, and
    only then: otherwise the exception leaves the coroutine with the client
    still open. *)
Lemma chat_client_closed_only_after_completion (w : World) (model : string)
    (c : Connection) (s : Locals) :
  let o := create_inference_client w model c s in
  closed (trace o) = constructed (trace o)
  ∨ (closed (trace o) = [] ∧ ∃ e, res o = Raise e).
Proof. dispatch_cases; eauto. Qed.

(** C6, at the input where the code departs from it: the named
    connection is an Azure OpenAI connection with an API key and the
    completion request fails.  The project session has been exited, but the
    [AsyncAzureOpenAI] client that was constructed is never closed: line 116 is
    skipped by the exception. *)
Theorem chat_client_left_open_when_completion_fails :
  let o := main failing_completion_world in
  let cl := {| aoai_auth := api_key (Some "0123456789abcdef");
               azure_endpoint := "https://example.openai.azure.com";
               api_version := "2024-06-01" |} in
  res o = Raise (ExternalError "chat completion request failed")
  ∧ constructed (trace o) = [OpenAICompatible cl]
  ∧ closed (trace o) = []
  ∧ List.filter is_project_enter (trace o) = [EProjectEnter]
  ∧ List.filter is_project_exit (trace o) = [EProjectExit].
Proof. vm_compute. done. Qed.

(** ** Further properties of lines 79-146 *)

Lemma dispatch_events (w : World) (model : string) (c : Connection) (s : Locals) :
  Forall (λ e, is_dispatch_event e = true) (trace (create_inference_client w model c s)).
Proof. dispatch_cases; repeat first [apply Forall_nil_2 | apply Forall_cons_2; [done|]]. Qed.

Lemma dispatch_requests (w : World) (model : string) (c : Connection) (s : Locals) :
  completion_requests (trace (create_inference_client w model c s))
  = (λ cl, (cl, model, question)) <$> built w (trace (create_inference_client w model c s)).
Proof.
  unfold built. dispatch_cases; try congruence;
    repeat match goal with H : _ = _ |- _ => rewrite H end; reflexivity.
Qed.

Lemma dispatch_at_most_one (w : World) (model : string) (c : Connection) (s : Locals) :
  (length (constructed (trace (create_inference_client w model c s))) ≤ 1)%nat.
Proof. dispatch_cases; lia. Qed.

Section Dispatch.

Context (w : World) (model : string) (c : Connection) (s : Locals).

(** X7: [get_bearer_token_provider] is called on no path but the Azure
    OpenAI one with Entra ID authentication. *)
Theorem bearer_provider_only_for_openai_entra_id :
  bearer_token_providers (trace (create_inference_client w model c s)) ≠ [] →
  connection_type c = AZURE_OPEN_AI ∧ authentication_type c = ENTRA_ID.
Proof. dispatch_cases; done. Qed.

(** X8: every client that is constructed points at the connection's
    [endpoint_url], and every [AsyncAzureOpenAI] client is given the API
    version [2024-06-01]. *)
Theorem clients_target_the_connection_endpoint :
  Forall (λ cl, client_endpoint cl = endpoint_url c
                ∧ match cl with
                  | OpenAICompatible a => api_version a = "2024-06-01"
                  | InferenceService _ => True
                  end)
         (constructed (trace (create_inference_client w model c s))).
Proof. dispatch_cases; repeat constructor. Qed.

(** X9: on an Azure AI Services connection with API-key authentication
    the credential is the key itself when there is one, and the empty string
    when the key is [None] or empty; no bearer-token provider is involved. *)
Theorem inference_api_key_uses_key_or_empty :
  connection_type c = AZURE_AI_SERVICES →
  authentication_type c = API_KEY →
  let o := create_inference_client w model c s in
  constructed (trace o)
    = [InferenceService {| endpoint := endpoint_url c;
                           credential := AzureKeyCredential (default EmptyString (key c)) |}]
  ∧ bearer_token_providers (trace o) = [].
Proof.
  intros Hct Hauth. rewrite <- or_empty_default.
  unfold create_inference_client, inference_client_for.
  rewrite Hct, Hauth. split; after_factory.
Qed.

(** X11: if the completion service answers, whatever it answers, every
    client that was built, that is, whose constructor call returned, is closed
    before the coroutine ends. *)
Theorem client_closed_when_completion_returns :
  (∀ cl m ms, ∃ r, chat_completions_create w cl m ms = Ok r) →
  (∀ cl m ms, ∃ r, complete w cl m ms = Ok r) →
  closed (trace (create_inference_client w model c s))
  = built w (trace (create_inference_client w model c s)).
Proof.
  intros Hcreate Hcomplete. unfold built. dispatch_cases;
    try match goal with
        | H : chat_completions_create _ ?cl ?m ?ms = Raise _ |- _ =>
            destruct (Hcreate cl m ms); congruence
        | H : complete _ ?cl ?m ?ms = Raise _ |- _ =>
            destruct (Hcomplete cl m ms); congruence
        end;
    try congruence;
    repeat match goal with H : _ = _ |- _ => rewrite H end; reflexivity.
Qed.

(** X12: when the dispatch handles the connection, the constructor call
    it makes returns, and the service answers with no choice at all,
    [choices[0]] raises [IndexError]; by then the one client constructed has
    been closed, and closing it was the last thing done. *)
Theorem empty_choices_raise_index_error_after_close (r : ChatCompletions) :
  is_Some (chosen_variant (connection_type c) (authentication_type c)) →
  Forall (λ cl, constructor_returns w cl = true)
         (constructed (trace (create_inference_client w model c s))) →
  (∀ cl m ms, chat_completions_create w cl m ms = Ok r) →
  (∀ cl m ms, complete w cl m ms = Ok r) →
  choices r = [] →
  let o := create_inference_client w model c s in
  res o = Raise IndexError
  ∧ ∃ cl, constructed (trace o) = [cl]
          ∧ closed (trace o) = [cl]
          ∧ last (trace o) ≫= closing = Some cl.
Proof.
  intros Hsome Hbuilt Hcreate Hcomplete Hnone. revert Hbuilt.
  unfold create_inference_client, aoai_client_for, inference_client_for, print_first_choice,
    new_AsyncAzureOpenAI, new_ChatCompletionsClient, get_bearer_token_provider.
  destruct (connection_type c), (authentication_type c);
    try (by destruct Hsome); simpl; rewrite ?bind_unfold; simpl;
    repeat match goal with
           | |- context [AsyncAzureOpenAI_init ?w ?cl] =>
               let E := fresh "Hinit" in
               destruct (AsyncAzureOpenAI_init w cl) as [[]|] eqn:E; simpl
           | |- context [ChatCompletionsClient_init ?w ?cl] =>
               let E := fresh "Hinit" in
               destruct (ChatCompletionsClient_init w cl) as [[]|] eqn:E; simpl
           end;
    rewrite ?Hcreate, ?Hcomplete; simpl; rewrite ?Hnone; simpl;
    intros Hbuilt; try (by eauto);
    apply Forall_cons_1 in Hbuilt as [Hcl _]; simpl in Hcl;
    rewrite Hinit in Hcl; discriminate Hcl.
Qed.

(** X13: when the dispatch handles the connection, the constructor call
    it makes returns, and the service answers with at least one choice, the
    run ends normally and the last line printed is the content of the first
    choice ([None] when it has no content); the other choices are not looked
    at, and the client has been closed. *)
Theorem first_choice_is_printed (r : ChatCompletions) (first : option string)
    (others : list (option string)) :
  is_Some (chosen_variant (connection_type c) (authentication_type c)) →
  Forall (λ cl, constructor_returns w cl = true)
         (constructed (trace (create_inference_client w model c s))) →
  (∀ cl m ms, chat_completions_create w cl m ms = Ok r) →
  (∀ cl m ms, complete w cl m ms = Ok r) →
  choices r = first :: others →
  let o := create_inference_client w model c s in
  res o = Ok tt
  ∧ last (trace o) = Some (EPrint (default "None" first))
  ∧ closed (trace o) = constructed (trace o).
Proof.
  intros Hsome Hbuilt Hcreate Hcomplete Hfirst. revert Hbuilt.
  unfold create_inference_client, aoai_client_for, inference_client_for, print_first_choice,
    new_AsyncAzureOpenAI, new_ChatCompletionsClient, get_bearer_token_provider.
  destruct (connection_type c), (authentication_type c);
    try (by destruct Hsome); simpl; rewrite ?bind_unfold; simpl;
    repeat match goal with
           | |- context [AsyncAzureOpenAI_init ?w ?cl] =>
               let E := fresh "Hinit" in
               destruct (AsyncAzureOpenAI_init w cl) as [[]|] eqn:E; simpl
           | |- context [ChatCompletionsClient_init ?w ?cl] =>
               let E := fresh "Hinit" in
               destruct (ChatCompletionsClient_init w cl) as [[]|] eqn:E; simpl
           end;
    rewrite ?Hcreate, ?Hcomplete; simpl; rewrite ?Hfirst; simpl;
    intros Hbuilt; try (by eauto);
    apply Forall_cons_1 in Hbuilt as [Hcl _]; simpl in Hcl;
    rewrite Hinit in Hcl; discriminate Hcl.
Qed.

End Dispatch.

(** ** Further properties of the whole run *)

Lemma queries_app (t1 t2 : list Event) : queries (t1 ++ t2) = queries t1 ++ queries t2.
Proof. apply List.filter_app. Qed.

Lemma queries_none (t : list Event) :
  Forall (λ e, is_query e = false) t → queries t = [].
Proof. apply filter_none. Qed.

Lemma queries_printed (w : World) (l : list Connection) : queries (printed w l) = [].
Proof. by induction l. Qed.

Lemma completion_requests_app (t1 t2 : list Event) :
  completion_requests (t1 ++ t2) = completion_requests t1 ++ completion_requests t2.
Proof. apply omap_app. Qed.

Lemma completion_requests_none (t : list Event) :
  Forall (λ e, completion_request e = None) t → completion_requests t = [].
Proof.
  induction 1 as [|e t He _ IH]; [done|]. unfold completion_requests. simpl. by rewrite He.
Qed.

Lemma queries_cons (e : Event) (t : list Event) :
  queries (e :: t) = (if is_query e then [e] else []) ++ queries t.
Proof. unfold queries. simpl. by destruct (is_query e). Qed.

Lemma queries_print_lines (w : World) (l : list Connection) (t : list Event) :
  queries (((λ x, EPrint (str_Connection w x)) <$> l) ++ t) = queries t.
Proof. rewrite queries_app. fold (printed w l). by rewrite queries_printed. Qed.

#[local] Arguments queries : simpl never.

(** Computes [queries] on a trace made of literal events and printed listings. *)
Ltac count_queries :=
  repeat first [rewrite queries_print_lines | rewrite queries_cons];
  cbn [is_query app].

(** The queries made inside the [async with] block are an initial part of the
    four queries of the source, whatever the service answers. *)
Lemma with_body_queries (w : World) (cname : string) (s : Locals) :
  queries (trace (with_body w cname s)) `prefix_of` four_queries cname.
Proof.
  unfold with_body.
  unfold project_client_connections_list, project_client_connections_get_default,
    project_client_connections_get.
  rewrite bind_unfold. simpl.
  destruct (connections_list w None) as [l1|]; simpl; [|count_queries; by eexists].
  rewrite !bind_unfold, !for_connection_in_print. simpl.
  destruct (connections_list w (Some AZURE_OPEN_AI)) as [l2|]; simpl;
    [|count_queries; by eexists].
  rewrite !bind_unfold, !for_connection_in_print. simpl.
  destruct (connections_get_default w AZURE_AI_SERVICES true) as [d|]; simpl;
    [destruct (connections_get w cname true) as [c|]; simpl|];
    count_queries; by eexists.
Qed.

(** More exactly: a query is made when, and only when, the one before it returned. *)
Lemma with_body_queries_exact (w : World) (cname : string) (s : Locals) :
  queries (trace (with_body w cname s)) = take (S (leading_answers w)) (four_queries cname).
Proof.
  unfold with_body, leading_answers.
  unfold project_client_connections_list, project_client_connections_get_default,
    project_client_connections_get.
  rewrite bind_unfold. simpl.
  destruct (connections_list w None) as [l1|]; simpl; [|by count_queries].
  rewrite !bind_unfold, !for_connection_in_print. simpl.
  destruct (connections_list w (Some AZURE_OPEN_AI)) as [l2|]; simpl;
    [|by count_queries].
  rewrite !bind_unfold, !for_connection_in_print. simpl.
  destruct (connections_get_default w AZURE_AI_SERVICES true) as [d|]; simpl;
    [destruct (connections_get w cname true) as [c|]; simpl|];
    by count_queries.
Qed.

Lemma built_app (w : World) (t1 t2 : list Event) :
  built w (t1 ++ t2) = built w t1 ++ built w t2.
Proof. unfold built. by rewrite constructed_app, List.filter_app. Qed.

Lemma prefix_of_three_reads (t : list Event) :
  t `prefix_of` three_reads → Forall (λ e, is_environ_read e = true) t.
Proof.
  intros [k Hk].
  assert (Forall (λ e, is_environ_read e = true) three_reads) as Hall
    by (repeat constructor).
  rewrite Hk in Hall. by apply Forall_app in Hall as [? _].
Qed.

(** The four ways a run can go: a variable is missing; the connection string
    is rejected; the [async with] block raises; line 79 is reached. *)
Lemma sample_cases (w : World) (s : Locals) :
  let o := sample_connections_async w s in
  (∃ k, environ w !! k = None ∧ res o = Raise (KeyError k)
        ∧ trace o `prefix_of` three_reads
        ∧ expected_queries w = [])
  ∨ (∃ pcs cname model e,
       environ w !! "PROJECT_CONNECTION_STRING" = Some pcs
       ∧ environ w !! "CONNECTION_NAME" = Some cname
       ∧ environ w !! "MODEL_DEPLOYMENT_NAME" = Some model
       ∧ from_connection_string w pcs = Raise e
       ∧ res o = Raise e
       ∧ trace o = bootstrap_trace pcs)
  ∨ (∃ pcs cname model e,
       environ w !! "PROJECT_CONNECTION_STRING" = Some pcs
       ∧ environ w !! "CONNECTION_NAME" = Some cname
       ∧ environ w !! "MODEL_DEPLOYMENT_NAME" = Some model
       ∧ from_connection_string w pcs = Ok tt
       ∧ res (with_body w cname s) = Raise e
       ∧ res o = Raise e
       ∧ trace o = bootstrap_trace pcs
                   ++ EProjectEnter :: trace (with_body w cname s) ++ [EProjectExit])
  ∨ (∃ pcs cname model l1 l2 d c,
       environ w !! "PROJECT_CONNECTION_STRING" = Some pcs
       ∧ environ w !! "CONNECTION_NAME" = Some cname
       ∧ environ w !! "MODEL_DEPLOYMENT_NAME" = Some model
       ∧ from_connection_string w pcs = Ok tt
       ∧ connections_list w None = Ok l1
       ∧ connections_list w (Some AZURE_OPEN_AI) = Ok l2
       ∧ connections_get_default w AZURE_AI_SERVICES true = Ok d
       ∧ connections_get w cname true = Ok c
       ∧ o = after (bootstrap_trace pcs
                      ++ EProjectEnter :: with_body_trace w cname l1 l2 d c ++ [EProjectExit])
               (create_inference_client w model c
                  {| connections := Some l2; connection := Some c |})).
Proof.
  intros o. subst o.
  destruct (environ w !! "PROJECT_CONNECTION_STRING") as [pcs|] eqn:Hp;
    [destruct (environ w !! "CONNECTION_NAME") as [cname|] eqn:Hn;
       [destruct (environ w !! "MODEL_DEPLOYMENT_NAME") as [model|] eqn:Hm;
          [destruct (from_connection_string w pcs) as [[]|e] eqn:Hf|]|]|].
  - destruct (res (with_body w cname s)) as [[]|e] eqn:Hres.
    + do 3 right.
      destruct (with_body_ok w cname s Hres) as (l1 & l2 & d & c & H1 & H2 & Hd & Hc).
      exists pcs, cname, model, l1, l2, d, c. repeat split; try done.
      by apply sample_run.
    + do 2 right. left. exists pcs, cname, model, e.
      rewrite (sample_after_bootstrap w s pcs cname model) by done.
      unfold after. cbn [trace res].
      rewrite bind_unfold, async_with_project_client_unfold. cbn [res].
      rewrite Hres. by cbn [trace res].
  - right. left. exists pcs, cname, model, e.
    unfold sample_connections_async, os_environ,
      AIProjectClient_from_connection_string, DefaultAzureCredential.
    rewrite bind_unfold. simpl. rewrite Hp. simpl.
    rewrite bind_unfold. simpl. rewrite Hn. simpl.
    rewrite bind_unfold. simpl. rewrite Hm. simpl.
    rewrite bind_unfold. simpl. rewrite Hf. by simpl.
  - left. exists "MODEL_DEPLOYMENT_NAME".
    unfold sample_connections_async, os_environ.
    rewrite bind_unfold. simpl. rewrite Hp. simpl.
    rewrite bind_unfold. simpl. rewrite Hn. simpl.
    rewrite bind_unfold. simpl. rewrite Hm. simpl.
    split; [done|]. split; [done|]. split; [by exists []|].
    unfold expected_queries. by rewrite Hp, Hn, Hm.
  - left. exists "CONNECTION_NAME".
    unfold sample_connections_async, os_environ.
    rewrite bind_unfold. simpl. rewrite Hp. simpl.
    rewrite bind_unfold. simpl. rewrite Hn. simpl.
    split; [done|]. split; [done|].
    split; [by exists [EEnviron "MODEL_DEPLOYMENT_NAME"]|].
    unfold expected_queries. by rewrite Hp, Hn.
  - left. exists "PROJECT_CONNECTION_STRING".
    unfold sample_connections_async, os_environ.
    rewrite bind_unfold. simpl. rewrite Hp. simpl.
    split; [done|]. split; [done|]. split; [by eexists|].
    unfold expected_queries. by rewrite Hp.
Qed.

Lemma with_body_trace_events (w : World) (cname : string)
    (l1 l2 : list Connection) (d c : Connection) :
  Forall (λ e, is_query_or_print e = true) (with_body_trace w cname l1 l2 d c).
Proof. unfold with_body_trace. each_event. Qed.

Lemma with_body_trace_queries (w : World) (cname : string)
    (l1 l2 : list Connection) (d c : Connection) :
  queries (with_body_trace w cname l1 l2 d c) = four_queries cname.
Proof.
  unfold with_body_trace, printed. simpl. count_queries. reflexivity.
Qed.

Section Run.

Context (w : World) (s : Locals).

(** X1: every run has one of two shapes.  Either it does nothing but read
    the environment and build the project client; or it does that, enters the
    project session, makes only connection queries and prints inside it, exits
    the session, and only then constructs, uses and closes a chat client.  So
    the connection service is never queried outside the session, and the chat
    client is never built or used inside it. *)
Theorem session_brackets_the_queries :
  let t := trace (sample_connections_async w s) in
  Forall (λ e, is_configuration_event e = true) t
  ∨ ∃ pcs body post,
      environ w !! "PROJECT_CONNECTION_STRING" = Some pcs
      ∧ t = bootstrap_trace pcs ++ EProjectEnter :: body ++ EProjectExit :: post
      ∧ Forall (λ e, is_query_or_print e = true) body
      ∧ Forall (λ e, is_dispatch_event e = true) post.
Proof.
  intros t. subst t.
  destruct (sample_cases w s)
    as [(k & _ & _ & Hpre & _)
       |[(pcs & cname & model & e & Hp & _ & _ & _ & _ & ->)
        |[(pcs & cname & model & e & Hp & _ & _ & _ & _ & _ & ->)
         |(pcs & cname & model & l1 & l2 & d & c & Hp & _ & _ & _ & _ & _ & _ & _ & ->)]]].
  - left. eapply Forall_impl; [by apply prefix_of_three_reads|]. by intros [].
  - left. by repeat constructor.
  - right. exists pcs, (trace (with_body w cname s)), [].
    repeat split; [done|apply with_body_events|done].
  - right. exists pcs, (with_body_trace w cname l1 l2 d c),
      (trace (create_inference_client w model c
                {| connections := Some l2; connection := Some c |})).
    repeat split; [done| |apply with_body_trace_events|apply dispatch_events].
    unfold after. cbn [trace]. rewrite <- app_assoc. simpl. by rewrite <- app_assoc.
Qed.

(** X5: the connection queries of a run are exactly these: none unless
    the three variables are set and the project client is built; then
    [list()], and each next one of [list(AZURE_OPEN_AI)],
    [get_default(AZURE_AI_SERVICES, True)] and [get(CONNECTION_NAME, True)]
    when, and only when, the query before it returned.  So the queries are
    always an initial part of the same four, in the same order: none is
    repeated, none is skipped, and none is made after a failure. *)
Theorem queries_follow_the_source_order :
  let t := trace (sample_connections_async w s) in
  queries t = expected_queries w
  ∧ (queries t = []
     ∨ ∃ cname, environ w !! "CONNECTION_NAME" = Some cname
                ∧ queries t `prefix_of` four_queries cname).
Proof.
  intros t. subst t.
  destruct (sample_cases w s)
    as [(k & _ & _ & Hpre & Hnone)
       |[(pcs & cname & model & e & Hp & Hn & Hm & Hf & _ & ->)
        |[(pcs & cname & model & e & Hp & Hn & Hm & Hf & _ & _ & ->)
         |(pcs & cname & model & l1 & l2 & d & c
           & Hp & Hn & Hm & Hf & H1 & H2 & Hd & Hc & ->)]]].
  - assert (queries (trace (sample_connections_async w s)) = []) as ->.
    { apply queries_none.
      eapply Forall_impl; [by apply prefix_of_three_reads|]. by intros []. }
    split; [done|by left].
  - unfold expected_queries. rewrite Hp, Hn, Hm, Hf. split; [done|by left].
  - assert (queries (bootstrap_trace pcs
                       ++ EProjectEnter :: trace (with_body w cname s) ++ [EProjectExit])
            = queries (trace (with_body w cname s))) as ->.
    { rewrite queries_app.
      change (EProjectEnter :: ?x) with ([EProjectEnter] ++ x).
      rewrite !queries_app. simpl. by rewrite app_nil_r. }
    split.
    + unfold expected_queries. rewrite Hp, Hn, Hm, Hf. apply with_body_queries_exact.
    + right. exists cname. split; [done|apply with_body_queries].
  - assert (queries (trace (after (bootstrap_trace pcs
                       ++ EProjectEnter :: with_body_trace w cname l1 l2 d c ++ [EProjectExit])
                       (create_inference_client w model c
                          {| connections := Some l2; connection := Some c |})))
            = four_queries cname) as ->.
    { unfold after. cbn [trace]. rewrite !queries_app.
      change (EProjectEnter :: ?x) with ([EProjectEnter] ++ x).
      rewrite !queries_app, with_body_trace_queries.
      rewrite (queries_none (trace _)); [done|].
      eapply Forall_impl; [apply dispatch_events|]. by intros []. }
    split.
    + unfold expected_queries, leading_answers. by rewrite Hp, Hn, Hm, Hf, H1, H2, Hd.
    + right. exists cname. split; [done|by exists []].
Qed.

(** X10: in a run with [MODEL_DEPLOYMENT_NAME] set, at most one client
    constructor is called, and the completion requests are exactly one per
    client built, that is, per constructor call that returned: sent through
    that client, for the model named by the variable, with the single user
    message of the source.  When the constructor raises, nothing is requested. *)
Theorem one_request_per_constructed_client (model : string) :
  environ w !! "MODEL_DEPLOYMENT_NAME" = Some model →
  let t := trace (sample_connections_async w s) in
  completion_requests t = (λ cl, (cl, model, question)) <$> built w t
  ∧ (length (constructed t) ≤ 1)%nat.
Proof.
  intros Hmodel t. subst t. unfold built.
  destruct (sample_cases w s)
    as [(k & _ & _ & Hpre & _)
       |[(pcs & cname & model' & e & _ & _ & _ & _ & _ & ->)
        |[(pcs & cname & model' & e & _ & _ & _ & _ & _ & _ & ->)
         |(pcs & cname & model' & l1 & l2 & d & c
           & _ & _ & Hm & _ & _ & _ & _ & _ & ->)]]].
  - apply prefix_of_three_reads in Hpre.
    rewrite completion_requests_none, constructed_none; [by split; [|simpl; lia]| |];
      (eapply Forall_impl; [exact Hpre|]; by intros []).
  - split; [done|simpl; lia].
  - pose proof (with_body_events w cname s) as Hbody.
    rewrite completion_requests_app, constructed_app.
    change (EProjectEnter :: ?x) with ([EProjectEnter] ++ x).
    rewrite !completion_requests_app, !constructed_app.
    rewrite (completion_requests_none (trace _)), (constructed_none (trace _));
      [by split; [|simpl; lia]| |];
      (eapply Forall_impl; [exact Hbody|]; by intros []).
  - assert (model' = model) as -> by congruence.
    unfold after. cbn [trace].
    rewrite completion_requests_app, constructed_app, before_line_79_constructed.
    rewrite (completion_requests_none (bootstrap_trace _ ++ _)).
    + simpl. split; [apply dispatch_requests|apply dispatch_at_most_one].
    + unfold bootstrap_trace, with_body_trace. each_event.
Qed.

End Run.

(** ** Failures before line 79, and connections the dispatch skips *)

Section Failures.

Context (w : World) (s : Locals) (pcs cname model : string).

Hypothesis Hpcs : environ w !! "PROJECT_CONNECTION_STRING" = Some pcs.
Hypothesis Hcname : environ w !! "CONNECTION_NAME" = Some cname.
Hypothesis Hmodel : environ w !! "MODEL_DEPLOYMENT_NAME" = Some model.

(** X4: if [AIProjectClient.from_connection_string] raises, the run ends
    with that exception right there: the session is never entered, no query is
    made, and the local variables are untouched. *)
Theorem rejected_connection_string_aborts_before_session (e : exn) :
  from_connection_string w pcs = Raise e →
  let o := sample_connections_async w s in
  res o = Raise e ∧ trace o = bootstrap_trace pcs ∧ locals o = s.
Proof.
  intros Hf. unfold sample_connections_async, os_environ,
    AIProjectClient_from_connection_string, DefaultAzureCredential.
  rewrite bind_unfold. simpl. rewrite Hpcs. simpl.
  rewrite bind_unfold. simpl. rewrite Hcname. simpl.
  rewrite bind_unfold. simpl. rewrite Hmodel. simpl.
  rewrite bind_unfold. simpl. rewrite Hf. by simpl.
Qed.

(** X2: if anything inside the [async with] block raises, the same
    exception leaves the coroutine unchanged, leaving the session is the last
    thing the run does, and nothing of lines 79-146 happens: no client is
    constructed and no completion is requested. *)
Theorem failure_inside_with_block_propagates (e : exn) :
  from_connection_string w pcs = Ok tt →
  res (with_body w cname s) = Raise e →
  let o := sample_connections_async w s in
  res o = Raise e
  ∧ last (trace o) = Some EProjectExit
  ∧ constructed (trace o) = []
  ∧ completion_requests (trace o) = [].
Proof.
  intros Hf Hres.
  rewrite (sample_after_bootstrap w s pcs cname model) by done.
  unfold after. cbn [trace res].
  rewrite bind_unfold, async_with_project_client_unfold. cbn [res].
  rewrite Hres. cbn [trace res].
  pose proof (with_body_events w cname s) as Hbody.
  split; [done|]. split.
  - change (EProjectEnter :: ?x ++ [EProjectExit]) with ((EProjectEnter :: x) ++ [EProjectExit]).
    rewrite app_assoc. apply last_snoc.
  - rewrite constructed_app, completion_requests_app.
    change (EProjectEnter :: ?x) with ([EProjectEnter] ++ x).
    rewrite !constructed_app, !completion_requests_app.
    rewrite (constructed_none (trace _)), (completion_requests_none (trace _)); [done| |];
      (eapply Forall_impl; [exact Hbody|]; by intros []).
Qed.

(** X3: if there is no default Azure AI Services connection, so that
    [get_default] raises, the run ends with that exception after the two
    listings: the session is exited, and the connection named by
    [CONNECTION_NAME] is never asked for. *)
Theorem missing_default_connection_aborts (l1 l2 : list Connection) (e : exn) :
  from_connection_string w pcs = Ok tt →
  connections_list w None = Ok l1 →
  connections_list w (Some AZURE_OPEN_AI) = Ok l2 →
  connections_get_default w AZURE_AI_SERVICES true = Raise e →
  let o := sample_connections_async w s in
  res o = Raise e
  ∧ trace o =
      bootstrap_trace pcs
      ++ [EProjectEnter;
          EConnectionsList None;
          EPrint (all_connections_header (length l1))]
      ++ printed w l1
      ++ [EConnectionsList (Some AZURE_OPEN_AI); EPrint azure_openai_header]
      ++ printed w l2
      ++ [EConnectionsGetDefault AZURE_AI_SERVICES true; EProjectExit].
Proof.
  intros Hf H1 H2 Hd.
  rewrite (sample_after_bootstrap w s pcs cname model) by done.
  unfold after. cbn [trace res].
  rewrite bind_unfold, async_with_project_client_unfold. cbn [res trace].
  assert (res (with_body w cname s) = Raise e
          ∧ trace (with_body w cname s) =
              [EConnectionsList None; EPrint (all_connections_header (length l1))]
              ++ printed w l1
              ++ [EConnectionsList (Some AZURE_OPEN_AI); EPrint azure_openai_header]
              ++ printed w l2
              ++ [EConnectionsGetDefault AZURE_AI_SERVICES true]) as [-> ->].
  { unfold with_body.
    unfold project_client_connections_list, project_client_connections_get_default,
      project_client_connections_get.
    rewrite bind_unfold. simpl. rewrite H1. simpl.
    rewrite !bind_unfold, !for_connection_in_print. simpl.
    rewrite H2. simpl.
    rewrite !bind_unfold, !for_connection_in_print. simpl.
    rewrite Hd. by simpl. }
  cbn [res trace]. split; [done|].
  repeat (simpl; rewrite <- ?app_assoc). reflexivity.
Qed.

(** X6: if the connection fetched by name has a type other than Azure
    OpenAI and Azure AI Services (a Serverless one, say), the run ends normally
    as soon as the session is left: nothing is constructed, requested or
    printed after it, and no error is raised. *)
Theorem unhandled_connection_type_is_skipped (l1 l2 : list Connection) (d c : Connection) :
  from_connection_string w pcs = Ok tt →
  connections_list w None = Ok l1 →
  connections_list w (Some AZURE_OPEN_AI) = Ok l2 →
  connections_get_default w AZURE_AI_SERVICES true = Ok d →
  connections_get w cname true = Ok c →
  connection_type c ≠ AZURE_OPEN_AI →
  connection_type c ≠ AZURE_AI_SERVICES →
  let o := sample_connections_async w s in
  res o = Ok tt
  ∧ trace o = bootstrap_trace pcs
              ++ EProjectEnter :: with_body_trace w cname l1 l2 d c ++ [EProjectExit].
Proof.
  intros Hf H1 H2 Hd Hc Hopenai Hservices.
  rewrite (sample_run w s pcs cname model l1 l2 d c) by done.
  unfold create_inference_client.
  rewrite !decide_False by done.
  unfold after. simpl. by rewrite app_nil_r.
Qed.

End Failures.

(** ** The statements at concrete inputs *)

Lemma aoai_api_key_uses_static_key_witness :
  connection_type openai_key_connection = AZURE_OPEN_AI
  ∧ authentication_type openai_key_connection = API_KEY
  ∧ constructed (trace (create_inference_client quiet_world "gpt-4o"
                          openai_key_connection no_locals))
    = [OpenAICompatible {| aoai_auth := api_key (Some "0123456789abcdef");
                           azure_endpoint := "https://example.openai.azure.com";
                           api_version := "2024-06-01" |}].
Proof.
  split; [reflexivity|]. split; [reflexivity|].
  exact (proj1 (aoai_api_key_uses_static_key quiet_world "gpt-4o"
                  openai_key_connection no_locals eq_refl eq_refl)).
Defined.

(** C1 as the spec words it fails: when the process environment supplies
    [AZURE_OPENAI_API_KEY], a connection with [key = None] still yields a
    client, since the factory passes [api_key=None] on and the constructor
    accepts it. *)
Lemma absent_key_is_not_rejected :
  ¬ key_presence_required environment_key_world openai_keyless_connection no_locals.
Proof. intros H. destruct (H eq_refl) as [e He]. vm_compute in He. discriminate He. Qed.

Lemma aoai_entra_id_wraps_once_witness :
  connection_type openai_entra_connection = AZURE_OPEN_AI
  ∧ authentication_type openai_entra_connection = ENTRA_ID
  ∧ bearer_token_providers (trace (create_inference_client quiet_world "gpt-4o"
                                     openai_entra_connection no_locals))
    = [{| provider_credential := Some 7;
          provider_scope := "https://cognitiveservices.azure.com/.default" |}].
Proof.
  split; [reflexivity|]. split; [reflexivity|].
  exact (proj1 (aoai_entra_id_wraps_once quiet_world "gpt-4o"
                  openai_entra_connection no_locals eq_refl eq_refl)).
Defined.

Lemma unsupported_authentication_fails_witness :
  (connection_type openai_sas_connection = AZURE_OPEN_AI
   ∨ connection_type openai_sas_connection = AZURE_AI_SERVICES)
  ∧ authentication_type openai_sas_connection ≠ API_KEY
  ∧ authentication_type openai_sas_connection ≠ ENTRA_ID
  ∧ res (create_inference_client quiet_world "gpt-4o" openai_sas_connection no_locals)
    = Raise (ValueError "Authentication type SAS not supported.").
Proof.
  assert (H1 : authentication_type openai_sas_connection ≠ API_KEY) by discriminate.
  assert (H2 : authentication_type openai_sas_connection ≠ ENTRA_ID) by discriminate.
  split; [left; reflexivity|]. split; [exact H1|]. split; [exact H2|].
  exact (proj1 (unsupported_authentication_fails quiet_world "gpt-4o"
                  openai_sas_connection no_locals (or_introl eq_refl) H1 H2)).
Defined.

Lemma inference_api_key_missing_key_tolerated_witness :
  connection_type services_keyless_connection = AZURE_AI_SERVICES
  ∧ authentication_type services_keyless_connection = API_KEY
  ∧ key services_keyless_connection = None
  ∧ constructed (trace (create_inference_client quiet_world "gpt-4o"
                          services_keyless_connection no_locals))
    = [InferenceService {| endpoint := "https://example.openai.azure.com";
                           credential := AzureKeyCredential EmptyString |}].
Proof.
  split; [reflexivity|]. split; [reflexivity|]. split; [reflexivity|].
  exact (proj2 (inference_api_key_missing_key_tolerated quiet_world "gpt-4o"
                  services_keyless_connection no_locals eq_refl eq_refl eq_refl)).
Defined.

Lemma inference_entra_id_raw_credential_witness :
  connection_type services_entra_connection = AZURE_AI_SERVICES
  ∧ authentication_type services_entra_connection = ENTRA_ID
  ∧ constructed (trace (create_inference_client quiet_world "gpt-4o"
                          services_entra_connection no_locals))
    = [InferenceService {| endpoint := "https://example.openai.azure.com";
                           credential := RawTokenCredential (Some 7) |}].
Proof.
  split; [reflexivity|]. split; [reflexivity|].
  exact (proj1 (inference_entra_id_raw_credential quiet_world "gpt-4o"
                  services_entra_connection no_locals eq_refl eq_refl)).
Defined.

Lemma missing_environment_variable_is_fatal_witness :
  environ unconfigured_world !! "CONNECTION_NAME" = None
  ∧ trace (main unconfigured_world) `prefix_of` three_reads
  ∧ List.filter is_network_call (trace (main unconfigured_world)) = [].
Proof.
  assert (H : environ unconfigured_world !! "CONNECTION_NAME" = None) by reflexivity.
  split; [exact H|].
  pose proof (proj1 (missing_environment_variable_is_fatal unconfigured_world no_locals)
                (or_intror (or_introl H))) as (_ & Hprefix & Hnet & _).
  exact (conj Hprefix Hnet).
Defined.

(** C8 as the spec words it fails: an Azure OpenAI connection with SAS
    authentication is a resolved connection for which no client is constructed. *)
Lemma unsupported_authentication_constructs_no_client :
  ¬ exactly_one_client quiet_world "gpt-4o" openai_sas_connection no_locals.
Proof. unfold exactly_one_client. vm_compute. discriminate. Qed.

Lemma at_most_one_client_chosen_by_type_then_auth_witness :
  (connection_type services_entra_connection = AZURE_OPEN_AI
   ∨ connection_type services_entra_connection = AZURE_AI_SERVICES)
  ∧ variant_of <$> constructed (trace (create_inference_client quiet_world "gpt-4o"
                                          services_entra_connection no_locals))
    = [InferenceVariant].
Proof.
  split; [right; reflexivity|].
  exact (proj2 (at_most_one_client_chosen_by_type_then_auth quiet_world "gpt-4o"
                  services_entra_connection no_locals) (or_intror eq_refl)).
Defined.

Lemma dispatch_uses_connection_fetched_by_name_witness :
  connections_get_default quiet_world AZURE_AI_SERVICES true = Ok services_entra_connection
  ∧ connections_get quiet_world "my-connection" true = Ok openai_key_connection
  ∧ constructed (trace (main quiet_world))
    = constructed (trace (create_inference_client quiet_world "gpt-4o" openai_key_connection
                            {| connections := Some [openai_key_connection];
                               connection := Some openai_key_connection |})).
Proof.
  split; [reflexivity|]. split; [reflexivity|].
  exact (proj1 (proj2 (proj1 (dispatch_uses_connection_fetched_by_name quiet_world no_locals)
                         "host;subscription;group;project" "my-connection" "gpt-4o"
                         [openai_key_connection; services_entra_connection]
                         [openai_key_connection]
                         services_entra_connection openai_key_connection
                         eq_refl eq_refl eq_refl eq_refl eq_refl eq_refl eq_refl eq_refl))).
Defined.

Lemma azure_openai_header_is_not_interpolated_witness :
  connections_list quiet_world (Some AZURE_OPEN_AI) = Ok [openai_key_connection]
  ∧ ∃ rest,
      trace (main quiet_world) =
        bootstrap_trace "host;subscription;group;project"
        ++ [EProjectEnter;
            EConnectionsList None;
            EPrint "====> Listing of all connections (found 2):";
            EPrint "my-connection";
            EPrint "my-connection";
            EConnectionsList (Some AZURE_OPEN_AI);
            EPrint "====> Listing of all Azure Open AI connections (found {len(connections)}):";
            EPrint "my-connection"]
        ++ rest.
Proof.
  split; [reflexivity|].
  destruct (proj1 (azure_openai_header_is_not_interpolated quiet_world no_locals
                     "host;subscription;group;project" "my-connection" "gpt-4o"
                     [openai_key_connection; services_entra_connection]
                     [openai_key_connection]
                     eq_refl eq_refl eq_refl eq_refl eq_refl eq_refl)) as [rest Hrest].
  exists rest. exact Hrest.
Defined.

(** ** The further properties at concrete inputs *)

Lemma bearer_provider_only_for_openai_entra_id_witness :
  bearer_token_providers
    (trace (create_inference_client quiet_world "gpt-4o" openai_entra_connection no_locals)) ≠ []
  ∧ connection_type openai_entra_connection = AZURE_OPEN_AI
  ∧ authentication_type openai_entra_connection = ENTRA_ID.
Proof.
  assert (H : bearer_token_providers
                (trace (create_inference_client quiet_world "gpt-4o"
                          openai_entra_connection no_locals)) ≠ [])
    by (vm_compute; discriminate).
  split; [exact H|].
  exact (bearer_provider_only_for_openai_entra_id quiet_world "gpt-4o"
           openai_entra_connection no_locals H).
Defined.

Lemma inference_api_key_uses_key_or_empty_witness :
  connection_type services_key_connection = AZURE_AI_SERVICES
  ∧ authentication_type services_key_connection = API_KEY
  ∧ constructed (trace (create_inference_client quiet_world "gpt-4o"
                          services_key_connection no_locals))
    = [InferenceService {| endpoint := "https://example.openai.azure.com";
                           credential := AzureKeyCredential "0123456789abcdef" |}].
Proof.
  split; [reflexivity|]. split; [reflexivity|].
  exact (proj1 (inference_api_key_uses_key_or_empty quiet_world "gpt-4o"
                  services_key_connection no_locals eq_refl eq_refl)).
Defined.

Lemma client_closed_when_completion_returns_witness :
  (∀ cl m ms, ∃ r, chat_completions_create quiet_world cl m ms = Ok r)
  ∧ (∀ cl m ms, ∃ r, complete quiet_world cl m ms = Ok r)
  ∧ closed (trace (create_inference_client quiet_world "gpt-4o"
                     openai_key_connection no_locals))
    = built quiet_world (trace (create_inference_client quiet_world "gpt-4o"
                                  openai_key_connection no_locals)).
Proof.
  assert (H1 : ∀ cl m ms, ∃ r, chat_completions_create quiet_world cl m ms = Ok r)
    by (intros; eexists; reflexivity).
  assert (H2 : ∀ cl m ms, ∃ r, complete quiet_world cl m ms = Ok r)
    by (intros; eexists; reflexivity).
  split; [exact H1|]. split; [exact H2|].
  exact (client_closed_when_completion_returns quiet_world "gpt-4o"
           openai_key_connection no_locals H1 H2).
Defined.

Lemma empty_choices_raise_index_error_after_close_witness :
  choices {| choices := [] |} = []
  ∧ Forall (λ cl, constructor_returns no_choice_world cl = true)
      (constructed (trace (create_inference_client no_choice_world "gpt-4o"
                             openai_key_connection no_locals)))
  ∧ res (create_inference_client no_choice_world "gpt-4o" openai_key_connection no_locals)
    = Raise IndexError.
Proof.
  assert (Hbuilt : Forall (λ cl, constructor_returns no_choice_world cl = true)
                     (constructed (trace (create_inference_client no_choice_world "gpt-4o"
                                            openai_key_connection no_locals))))
    by (vm_compute; repeat constructor).
  split; [reflexivity|]. split; [exact Hbuilt|].
  exact (proj1 (empty_choices_raise_index_error_after_close no_choice_world "gpt-4o"
                  openai_key_connection no_locals {| choices := [] |}
                  (ex_intro _ OpenAIVariant eq_refl) Hbuilt
                  (λ _ _ _, eq_refl) (λ _ _ _, eq_refl) eq_refl)).
Defined.

Lemma first_choice_is_printed_witness :
  choices {| choices := [None; Some "ignored"] |} = [None; Some "ignored"]
  ∧ Forall (λ cl, constructor_returns null_content_world cl = true)
      (constructed (trace (create_inference_client null_content_world "gpt-4o"
                             services_key_connection no_locals)))
  ∧ last (trace (create_inference_client null_content_world "gpt-4o"
                   services_key_connection no_locals))
    = Some (EPrint "None").
Proof.
  assert (Hbuilt : Forall (λ cl, constructor_returns null_content_world cl = true)
                     (constructed (trace (create_inference_client null_content_world "gpt-4o"
                                            services_key_connection no_locals))))
    by (vm_compute; repeat constructor).
  split; [reflexivity|]. split; [exact Hbuilt|].
  exact (proj1 (proj2 (first_choice_is_printed null_content_world "gpt-4o"
                         services_key_connection no_locals
                         {| choices := [None; Some "ignored"] |} None [Some "ignored"]
                         (ex_intro _ InferenceVariant eq_refl) Hbuilt
                         (λ _ _ _, eq_refl) (λ _ _ _, eq_refl) eq_refl))).
Defined.

Lemma one_request_per_constructed_client_witness :
  environ quiet_world !! "MODEL_DEPLOYMENT_NAME" = Some "gpt-4o"
  ∧ completion_requests (trace (main quiet_world))
    = (λ cl, (cl, "gpt-4o", question)) <$> built quiet_world (trace (main quiet_world)).
Proof.
  split; [reflexivity|].
  exact (proj1 (one_request_per_constructed_client quiet_world no_locals "gpt-4o" eq_refl)).
Defined.

Lemma rejected_connection_string_aborts_before_session_witness :
  from_connection_string bad_connection_string_world "host;subscription;group;project"
    = Raise (ValueError "Invalid connection string format")
  ∧ res (main bad_connection_string_world)
    = Raise (ValueError "Invalid connection string format")
  ∧ trace (main bad_connection_string_world)
    = bootstrap_trace "host;subscription;group;project".
Proof.
  split; [reflexivity|].
  destruct (rejected_connection_string_aborts_before_session bad_connection_string_world
              no_locals "host;subscription;group;project" "my-connection" "gpt-4o"
              eq_refl eq_refl eq_refl
              (ValueError "Invalid connection string format") eq_refl) as (Hres & Htrace & _).
  exact (conj Hres Htrace).
Defined.

Lemma failure_inside_with_block_propagates_witness :
  res (with_body no_default_world "my-connection" no_locals)
    = Raise (ExternalError "ResourceNotFoundError")
  ∧ res (main no_default_world) = Raise (ExternalError "ResourceNotFoundError")
  ∧ last (trace (main no_default_world)) = Some EProjectExit.
Proof.
  assert (H : res (with_body no_default_world "my-connection" no_locals)
              = Raise (ExternalError "ResourceNotFoundError")) by reflexivity.
  split; [exact H|].
  destruct (failure_inside_with_block_propagates no_default_world
              no_locals "host;subscription;group;project" "my-connection" "gpt-4o"
              eq_refl eq_refl eq_refl
              (ExternalError "ResourceNotFoundError") eq_refl H) as (Hres & Hlast & _).
  exact (conj Hres Hlast).
Defined.

Lemma missing_default_connection_aborts_witness :
  connections_get_default no_default_world AZURE_AI_SERVICES true
    = Raise (ExternalError "ResourceNotFoundError")
  ∧ res (main no_default_world) = Raise (ExternalError "ResourceNotFoundError")
  ∧ queries (trace (main no_default_world))
    = [EConnectionsList None;
       EConnectionsList (Some AZURE_OPEN_AI);
       EConnectionsGetDefault AZURE_AI_SERVICES true].
Proof.
  split; [reflexivity|].
  destruct (missing_default_connection_aborts no_default_world
              no_locals "host;subscription;group;project" "my-connection" "gpt-4o"
              eq_refl eq_refl eq_refl
              [openai_key_connection; services_entra_connection] [openai_key_connection]
              (ExternalError "ResourceNotFoundError")
              eq_refl eq_refl eq_refl eq_refl) as (Hres & Htrace).
  split; [exact Hres|].
  unfold main. rewrite Htrace. reflexivity.
Defined.

Lemma unhandled_connection_type_is_skipped_witness :
  connections_get serverless_world "my-connection" true = Ok serverless_connection
  ∧ connection_type serverless_connection ≠ AZURE_OPEN_AI
  ∧ connection_type serverless_connection ≠ AZURE_AI_SERVICES
  ∧ res (main serverless_world) = Ok tt.
Proof.
  assert (H1 : connection_type serverless_connection ≠ AZURE_OPEN_AI) by discriminate.
  assert (H2 : connection_type serverless_connection ≠ AZURE_AI_SERVICES) by discriminate.
  split; [reflexivity|]. split; [exact H1|]. split; [exact H2|].
  exact (proj1 (unhandled_connection_type_is_skipped serverless_world
                  no_locals "host;subscription;group;project" "my-connection" "gpt-4o"
                  eq_refl eq_refl eq_refl
                  [openai_key_connection] [openai_key_connection]
                  services_entra_connection serverless_connection
                  eq_refl eq_refl eq_refl eq_refl eq_refl H1 H2)).
Defined.
